(** * The entity-resolution cache of crm_mcp ([src/crm_mcp/opp.py])

    A shallow embedding of the class [EntityCache] and the properties its
    specification states about it, followed by the methods of [CRMClient]
    that use the cache and [get_crm_config] of [src/crm_mcp/server.py].

    - Python values that reach the cache (decoded JSON, cache entries, names
      and identifiers) are the type [pyval].
    - A method of [EntityCache] is a computation in the monad [M]: it takes
      the state of the world, may raise a Python exception, and always leaves
      a new state (a mutation done before an exception stays done).
    - The world holds [self.cache_data], the trace of what left the process
      (HTTP requests, writes of the cache file) and the number of times the
      clock was read.
    - What the code calls and the repository does not define stays a
      parameter of the development: the CRM behind [requests.get], the
      clock behind [datetime.now], the ISO-8601 codec of [datetime] and
      [repr] on values that are not strings.
    - [logging] calls have no effect on the cache and are left out; their
      arguments are evaluated where that could raise. *)

From Stdlib Require Import ZArith Lia Ascii.
From stdpp Require Import base option list strings pretty gmap.

Local Open Scope Z_scope.
Local Set Warnings "-register-all".

(** ** Python values *)

(** Decoded JSON. A JSON number that is not an integer behaves, in every
    operation used below, like a non-zero [PInt]. Strings are sequences of
    characters. A dictionary keeps its items in insertion order. *)
Inductive pyval : Type :=
| PNone
| PBool (b : bool)
| PInt (z : Z)
| PStr (s : string)
| PList (l : list pyval)
| PDict (d : list (string * pyval)).

Inductive exn : Type :=
| TypeError | KeyError | IndexError | AttributeError | ValueError
| RequestException | JSONDecodeError.

Inductive result (A : Type) : Type :=
| Ok (a : A)
| Raised (e : exn).
Arguments Ok {A} a.
Arguments Raised {A} e.

Definition result_map {A B} (f : A → B) (r : result A) : result B :=
  match r with Ok a => Ok (f a) | Raised e => Raised e end.

(** [bool(v)] *)
Definition truthy (v : pyval) : bool :=
  match v with
  | PNone => false
  | PBool b => b
  | PInt z => negb (z =? 0)
  | PStr s => negb (String.eqb s "")
  | PList l => match l with [] => false | _ => true end
  | PDict d => match d with [] => false | _ => true end
  end.

(** [d.get(k)] on the items of a dictionary *)
Fixpoint dict_lookup (k : string) (d : list (string * pyval)) : option pyval :=
  match d with
  | [] => None
  | (k', v) :: d' => if String.eqb k k' then Some v else dict_lookup k d'
  end.

(** [needle in hay] on strings *)
Fixpoint str_contains (needle hay : string) : bool :=
  String.prefix needle hay
  || match hay with
     | EmptyString => false
     | String _ hay' => str_contains needle hay'
     end.

Definition is_str (s : string) (v : pyval) : bool :=
  match v with PStr s' => String.eqb s s' | _ => false end.

(** [k in v] for a string [k] *)
Definition py_in (k : string) (v : pyval) : result bool :=
  match v with
  | PDict d => Ok (bool_decide (is_Some (dict_lookup k d)))
  | PList l => Ok (existsb (is_str k) l)
  | PStr s => Ok (str_contains k s)
  | PNone | PBool _ | PInt _ => Raised TypeError
  end.

(** [v[k]] for a string [k] *)
Definition py_getitem (v : pyval) (k : string) : result pyval :=
  match v with
  | PDict d => match dict_lookup k d with
               | Some x => Ok x
               | None => Raised KeyError
               end
  | _ => Raised TypeError
  end.

(** [v.get(k, default)] *)
Definition py_get (v : pyval) (k : string) (default : pyval) : result pyval :=
  match v with
  | PDict d => Ok (match dict_lookup k d with Some x => x | None => default end)
  | _ => Raised AttributeError
  end.

(** [v[0]] *)
Definition py_first (v : pyval) : result pyval :=
  match v with
  | PList (x :: _) => Ok x
  | PList [] => Raised IndexError
  | PStr (String c _) => Ok (PStr (String c EmptyString))
  | PStr EmptyString => Raised IndexError
  | PDict _ => Raised KeyError
  | PNone | PBool _ | PInt _ => Raised TypeError
  end.

(** [v.startswith(prefixes)] for a tuple of prefixes *)
Definition py_startswith (v : pyval) (prefixes : list string) : result bool :=
  match v with
  | PStr s => Ok (existsb (λ p, String.prefix p s) prefixes)
  | _ => Raised AttributeError
  end.

(** [s[:8]] *)
Definition slice8 (s : string) : string := String.substring 0 8 s.

(** ** Time *)

(** A naive [datetime] is a count of microseconds; an aware one carries an
    offset and does not compare with a naive one. *)
Inductive datetime : Type :=
| Naive (us : Z)
| Aware (us : Z).

Definition CACHE_EXPIRY_HOURS : Z := 176.

(** [timedelta(hours=h)], in microseconds *)
Definition timedelta_hours (h : Z) : Z := h * 3600 * 1000000.

(** [a > b] on [datetime] *)
Definition datetime_gt (a b : datetime) : result bool :=
  match a, b with
  | Naive x, Naive y => Ok (bool_decide (y < x))
  | Aware x, Aware y => Ok (bool_decide (y < x))
  | _, _ => Raised TypeError
  end.

(** ** The world *)

Record request : Type := {
  url : string;
  headers : list (string * string);
  params : list (string * pyval)
}.

(** What [requests.get] does: raise, or return a response with a status
    code and a body; [json = None] is a body that [response.json()] cannot
    decode. *)
Inductive http_result : Type :=
| HttpError
| HttpResponse (status_code : Z) (json : option pyval).

Inductive event : Type :=
| Get (r : request)
| Save (table : gmap string pyval).

Record world : Type := {
  cache_data : gmap string pyval;
  trace : list event;
  ticks : nat
}.

Definition set_cache_data (f : gmap string pyval → gmap string pyval) (σ : world) : world :=
  {| cache_data := f (cache_data σ); trace := trace σ; ticks := ticks σ |}.

Definition emit (e : event) (σ : world) : world :=
  {| cache_data := cache_data σ; trace := trace σ ++ [e]; ticks := ticks σ |}.

Definition tick (σ : world) : world :=
  {| cache_data := cache_data σ; trace := trace σ; ticks := S (ticks σ) |}.

(** The requests sent so far *)
Definition requests_of (t : list event) : list request :=
  omap (λ e, match e with Get r => Some r | Save _ => None end) t.

(** ** Computations *)

Definition M (A : Type) : Type := world → result A * world.

Global Instance M_ret : MRet M := λ A a σ, (Ok a, σ).

Global Instance M_bind : MBind M := λ A B f m σ,
  match m σ with
  | (Ok a, σ') => f a σ'
  | (Raised e, σ') => (Raised e, σ')
  end.

Definition lift {A} (r : result A) : M A := λ σ, (r, σ).

Definition gets {A} (f : world → A) : M A := λ σ, (Ok (f σ), σ).

Definition modify (f : world → world) : M unit := λ σ, (Ok tt, f σ).

(** [try: body  except Exception: handler] *)
Definition try_except {A} (body : M A) (handler : exn → M A) : M A := λ σ,
  match body σ with
  | (Raised e, σ') => handler e σ'
  | r => r
  end.

(** ** The class [EntityCache] *)

Record fetch_config : Type := {
  endpoint : string;
  name_field : string
}.

Record reverse_config : Type := {
  r_endpoint : string;
  r_name_field : string;
  r_id_field : string
}.

Fixpoint assoc {A} (k : string) (l : list (string * A)) : option A :=
  match l with
  | [] => None
  | (k', v) :: l' => if String.eqb k k' then Some v else assoc k l'
  end.

(** [entity_configs] of [_fetch_from_crm] *)
Definition fetch_entity_configs : list (string * fetch_config) :=
  [ ("account", {| endpoint := "accounts"; name_field := "name" |});
    ("contact", {| endpoint := "contacts"; name_field := "fullname" |});
    ("user", {| endpoint := "systemusers"; name_field := "fullname" |});
    ("division", {| endpoint := "businessunits"; name_field := "name" |});
    ("service", {| endpoint := "actum_proposedservices"; name_field := "actum_name" |}) ].

(** [entity_configs] of [reverse_lookup] *)
Definition reverse_entity_configs : list (string * reverse_config) :=
  [ ("user", {| r_endpoint := "systemusers"; r_name_field := "fullname";
                r_id_field := "systemuserid" |});
    ("division", {| r_endpoint := "businessunits"; r_name_field := "name";
                    r_id_field := "businessunitid" |}) ].

(** What an [EntityCache] holds besides its table, and what it calls that
    the repository does not define. *)
Record environment : Type := {
  (** [self.access_token], [self.api_url] *)
  access_token : string;
  api_url : string;
  (** The CRM: what [requests.get] does with a request, given everything
      that left the process before it. *)
  remote : list event → request → http_result;
  (** The reading of [datetime.now()] at its n-th call, in microseconds. *)
  clock : nat → Z;
  (** [datetime.fromisoformat] ([None]: it raises [ValueError]) and
      [datetime.isoformat] on a naive datetime. *)
  fromisoformat : string → option datetime;
  isoformat : Z → string;
  (** [repr] on a value that is not a string *)
  py_repr : pyval → string
}.

Section EntityCache.

Variable E : environment.

(** [f"{v}"] *)
Definition py_str (v : pyval) : string :=
  match v with
  | PStr s => s
  | _ => py_repr E v
  end.

Definition datetime_now : M Z := λ σ, (Ok (clock E (ticks σ)), tick σ).

Definition datetime_fromisoformat (v : pyval) : result datetime :=
  match v with
  | PStr s => match fromisoformat E s with
              | Some t => Ok t
              | None => Raised ValueError
              end
  | _ => Raised TypeError
  end.

Definition requests_get (r : request) : M (Z * option pyval) := λ σ,
  match remote E (trace σ) r with
  | HttpError => (Raised RequestException, emit (Get r) σ)
  | HttpResponse code body => (Ok (code, body), emit (Get r) σ)
  end.

(** [response.json()] *)
Definition response_json (body : option pyval) : result pyval :=
  match body with
  | Some v => Ok v
  | None => Raised JSONDecodeError
  end.

Definition auth_headers : list (string * string) :=
  [ ("Authorization", "Bearer " +:+ access_token E);
    ("Accept", "application/json") ].

(** [_save_cache]: the table is written out as it is; a failure of the
    write is caught and logged. *)
Definition _save_cache : M unit :=
  modify (λ σ, emit (Save (cache_data σ)) σ).

Definition cache_entry_of (name : pyval) (now : Z) : pyval :=
  PDict [ ("name", name); ("timestamp", PStr (isoformat E now)) ].

(** The write of an entry, as [entity_lookup] (lines 103-107) and
    [reverse_lookup] (lines 164-168) both do it: the entry is built with
    the time of the write, put in the table, and the table is saved. *)
Definition store_entry (cache_key : string) (name : pyval) : M unit :=
  now ← datetime_now;
  modify (set_cache_data (<[cache_key := cache_entry_of name now]>));;
  _save_cache.

Definition _is_cache_entry_valid (cache_entry : pyval) : M bool :=
  if negb (truthy cache_entry) then mret false
  else
    present ← lift (py_in "timestamp" cache_entry);
    if negb present then mret false
    else
      try_except
        (ts ← lift (py_getitem cache_entry "timestamp");
         saved_time ← lift (datetime_fromisoformat ts);
         now ← datetime_now;
         let expiry_time := Naive (now - timedelta_hours CACHE_EXPIRY_HOURS) in
         lift (datetime_gt saved_time expiry_time))
        (λ _, mret false).

Definition fetch_request (config : fetch_config) (entity_id : string) : request :=
  {| url := api_url E +:+ "/" +:+ endpoint config +:+ "(" +:+ entity_id +:+ ")";
     headers := auth_headers;
     params := [ ("$select", PStr (name_field config)) ] |}.

Definition _fetch_from_crm (entity_type entity_id : string) : M pyval :=
  match assoc entity_type fetch_entity_configs with
  | None => mret (PStr ("Unknown type (" +:+ entity_type +:+ ")"))
  | Some config =>
    try_except
      ('(status_code, body) ← requests_get (fetch_request config entity_id);
       if status_code =? 200 then
         data ← lift (response_json body);
         lift (py_get data (name_field config)
                 (PStr ("No name (" +:+ slice8 entity_id +:+ "...)")))
       else if status_code =? 404 then
         mret (PStr ("Not found (" +:+ slice8 entity_id +:+ "...)"))
       else
         mret (PStr ("Error " +:+ pretty status_code
                       +:+ " (" +:+ slice8 entity_id +:+ "...)")))
      (λ _, mret (PStr ("Error (" +:+ slice8 entity_id +:+ "...)")))
  end.

Definition cache_key_of (entity_type entity_id : string) : string :=
  entity_type +:+ "_" +:+ entity_id.

(** Lines 89-96: the name of a valid entry, or [None] after an entry that
    is not valid has been deleted. *)
Definition check_cache (cache_key : string) : M (option pyval) :=
  cached ← gets (λ σ, cache_data σ !! cache_key);
  match cached return M (option pyval) with
  | Some cache_entry =>
    valid ← _is_cache_entry_valid cache_entry;
    if valid : bool then
      name ← lift (py_getitem cache_entry "name");
      mret (Some name)
    else
      modify (set_cache_data (delete cache_key));;
      mret None
  | None => mret None
  end.

(** Lines 98-108: fetch, write the entry with the time of the write,
    save, return the name. *)
Definition fetch_and_store (entity_type entity_id : string) : M pyval :=
  name ← _fetch_from_crm entity_type entity_id;
  store_entry (cache_key_of entity_type entity_id) name;;
  mret name.

Definition entity_lookup (entity_type : string) (entity_id : option string) : M pyval :=
  match entity_id with
  | None => mret (PStr "N/A")
  | Some entity_id =>
    if String.eqb entity_id "" then mret (PStr "N/A")
    else
      let cache_key := cache_key_of entity_type entity_id in
      hit ← check_cache cache_key;
      match hit return M pyval with
      | Some name => mret name
      | None => fetch_and_store entity_type entity_id
      end
  end.

Definition failure_prefixes : list string := [ "Unknown"; "Not found"; "Error" ].

Definition get_customer_name (customer_id : option string) : M pyval :=
  match customer_id with
  | None => mret (PStr "N/A")
  | Some id =>
    if String.eqb id "" then mret (PStr "N/A")
    else
      name ← entity_lookup "account" customer_id;
      usable ← lift (if truthy name
                     then result_map negb (py_startswith name failure_prefixes)
                     else Ok false);
      if usable : bool then mret name
      else entity_lookup "contact" customer_id
  end.

Definition search_request (config : reverse_config) (filter_expr : string) : request :=
  {| url := api_url E +:+ "/" +:+ r_endpoint config;
     headers := auth_headers;
     params := [ ("$filter", PStr filter_expr);
                 ("$select", PStr (r_id_field config +:+ "," +:+ r_name_field config));
                 ("$top", PInt 1) ] |}.

Definition exact_filter (config : reverse_config) (search_name : string) : string :=
  r_name_field config +:+ " eq '" +:+ search_name +:+ "'".

Definition partial_filter (config : reverse_config) (search_name : string) : string :=
  "contains(" +:+ r_name_field config +:+ ", '" +:+ search_name +:+ "')".

(** The list the [for] loop of [reverse_lookup] runs over *)
Definition search_filters (config : reverse_config) (search_name : string)
    : list (string * string) :=
  [ ("exact", exact_filter config search_name);
    ("partial", partial_filter config search_name) ].

(** What the body of a response says: the identifier and the name of the
    first result when it has a truthy identifier (lines 155-161). *)
Definition first_match (config : reverse_config) (data : pyval)
    : result (option (pyval * pyval)) :=
  match py_get data "value" (PList []) with
  | Raised e => Raised e
  | Ok results =>
    if truthy results then
      match py_first results with
      | Raised e => Raised e
      | Ok result =>
        match py_get result (r_id_field config) PNone with
        | Raised e => Raised e
        | Ok entity_id =>
          match py_get result (r_name_field config) PNone with
          | Raised e => Raised e
          | Ok entity_name =>
            if truthy entity_id then Ok (Some (entity_id, entity_name))
            else Ok None
          end
        end
      end
    else Ok None
  end.

(** The body of the [try] of one iteration: [Some entity_id] when it
    returns from [reverse_lookup], [None] when it falls through. *)
Definition search_attempt (entity_type : string) (config : reverse_config)
    (filter_expr : string) : M (option pyval) :=
  '(status_code, body) ← requests_get (search_request config filter_expr);
  if status_code =? 200 then
    data ← lift (response_json body);
    found ← lift (first_match config data);
    match found return M (option pyval) with
    | Some (entity_id, entity_name) =>
      store_entry (cache_key_of entity_type (py_str entity_id)) entity_name;;
      mret (Some entity_id)
    | None => mret None
    end
  else mret None.

(** The [for] loop: [return] on a match, the next filter on no match,
    [break] on an exception; after the loop [None] is returned. *)
Fixpoint search_loop (entity_type : string) (config : reverse_config)
    (filters : list (string * string)) : M pyval :=
  match filters with
  | [] => mret PNone
  | (_, filter_expr) :: rest => λ σ,
    match search_attempt entity_type config filter_expr σ with
    | (Ok (Some entity_id), σ') => (Ok entity_id, σ')
    | (Ok None, σ') => search_loop entity_type config rest σ'
    | (Raised _, σ') => (Ok PNone, σ')
    end
  end.

Definition reverse_lookup (entity_type : string) (search_name : option string) : M pyval :=
  match search_name with
  | None => mret PNone
  | Some search_name =>
    if String.eqb search_name "" then mret PNone
    else
      match assoc entity_type reverse_entity_configs with
      | None => mret PNone
      | Some config =>
        search_loop entity_type config (search_filters config search_name)
      end
  end.

End EntityCache.

(** ** The class [CRMClient] and the configuration of the server

    [CRMClient] builds its [EntityCache] with its own token and API URL, so
    one [environment] serves both. The text of a response and the exception
    of slicing a dictionary ([TypeError] before Python 3.12, [KeyError]
    since) are two more parameters. *)

(** [d.pop(k, None)] on the items of a dictionary *)
Fixpoint dict_remove (k : string) (d : list (string * pyval)) : list (string * pyval) :=
  match d with
  | [] => []
  | (k', v) :: d' =>
    if String.eqb k k' then dict_remove k d' else (k', v) :: dict_remove k d'
  end.

(** [d[k] = v] on the items of a dictionary: a key that is there keeps its
    place, a new key goes to the end. *)
Fixpoint dict_set (k : string) (v : pyval) (d : list (string * pyval))
    : list (string * pyval) :=
  match d with
  | [] => [ (k, v) ]
  | (k', v') :: d' =>
    if String.eqb k k' then (k', v) :: d' else (k', v') :: dict_set k v d'
  end.

(** The values [for x in v] goes through *)
Definition py_iter (v : pyval) : result (list pyval) :=
  match v with
  | PList l => Ok l
  | PStr s => Ok (map (λ c, PStr (String c EmptyString)) (String.list_ascii_of_string s))
  | PDict d => Ok (map (λ kv, PStr kv.1) d)
  | PNone | PBool _ | PInt _ => Raised TypeError
  end.

(** A list comprehension whose element expression may raise *)
Fixpoint result_map_list {A B} (f : A → result B) (l : list A) : result (list B) :=
  match l with
  | [] => Ok []
  | x :: l' =>
    match f x with
    | Raised e => Raised e
    | Ok y =>
      match result_map_list f l' with
      | Raised e => Raised e
      | Ok ys => Ok (y :: ys)
      end
    end
  end.

(** A [for] loop that builds one value per element *)
Fixpoint for_each {A B} (f : A → M B) (l : list A) : M (list B) :=
  match l with
  | [] => mret []
  | x :: l' => y ← f x; ys ← for_each f l'; mret (y :: ys)
  end.

(** [fields_to_remove] of [_clean_opportunity_data] *)
Definition fields_to_remove : list string :=
  [ "_ownerid_value"; "_customerid_value"; "_actum_divisionid_value";
    "_transactioncurrencyid_value"; "@odata.etag"; "opportunityid" ].

Definition _clean_opportunity_data (opportunity : pyval) : result pyval :=
  match opportunity with
  | PDict d => Ok (PDict (foldl (λ d field, dict_remove field d) d fields_to_remove))
  | PList _ => Raised TypeError
  | _ => Raised AttributeError
  end.

(** [get_crm_config] of the server, over [os.getenv]: the call of [upper]
    on the list of missing names (lines 31-32) raises [AttributeError]
    before the [ValueError] of line 32 is reached. *)
Definition get_crm_config (getenv : string → option string) : result pyval :=
  let value name :=
    match getenv name with Some s => PStr s | None => PNone end in
  let config :=
    [ ("client_id", value "CLIENT_ID"); ("client_secret", value "CLIENT_SECRET");
      ("tenant_id", value "TENANT_ID"); ("resource", value "RESOURCE") ] in
  let missing_vars := map fst (List.filter (λ kv, negb (truthy kv.2)) config) in
  match missing_vars with
  | [] => Ok (PDict config)
  | _ :: _ => Raised AttributeError
  end.

Section CRMClient.

Variable E : environment.

(** [response.text] of the response to a request, given everything that
    left the process before it *)
Variable response_text : list event → request → string.

Variable dict_slice_error : exn.

Definition _get_headers : list (string * string) :=
  [ ("Authorization", "Bearer " +:+ access_token E);
    ("OData-MaxVersion", "4.0");
    ("OData-Version", "4.0");
    ("Accept", "application/json");
    ("Content-Type", "application/json; charset=utf-8") ].

(** [v[:8]] *)
Definition py_slice8 (v : pyval) : result pyval :=
  match v with
  | PStr s => Ok (PStr (slice8 s))
  | PList l => Ok (PList (take 8 l))
  | PDict _ => Raised dict_slice_error
  | PNone | PBool _ | PInt _ => Raised TypeError
  end.

(** [f"{reason} ({entity_id[:8]}...)"] *)
Definition fallback_of (reason : string) (entity_id : pyval) : result pyval :=
  match py_slice8 entity_id with
  | Ok prefix => Ok (PStr (reason +:+ " (" +:+ py_str E prefix +:+ "...)"))
  | Raised e => Raised e
  end.

(** [_fetch_from_crm] on an identifier that is any value, as
    [get_open_opportunities] passes what the CRM sent *)
Definition _fetch_from_crm_value (entity_type : string) (entity_id : pyval) : M pyval :=
  match assoc entity_type fetch_entity_configs with
  | None => mret (PStr ("Unknown type (" +:+ entity_type +:+ ")"))
  | Some config =>
    try_except
      ('(status_code, body) ← requests_get E
                                 (fetch_request E config (py_str E entity_id));
       if status_code =? 200 then
         data ← lift (response_json body);
         _ ← lift (py_get data (name_field config) PNone);
         default ← lift (fallback_of "No name" entity_id);
         lift (py_get data (name_field config) default)
       else if status_code =? 404 then
         lift (fallback_of "Not found" entity_id)
       else
         lift (fallback_of ("Error " +:+ pretty status_code) entity_id))
      (λ _, lift (fallback_of "Error" entity_id))
  end.

(** [entity_lookup] on an identifier that is any value. Line 96 slices the
    identifier right after the deletion and line 99 slices it again; the
    two fail together. *)
Definition entity_lookup_value (entity_type : string) (entity_id : pyval) : M pyval :=
  if negb (truthy entity_id) then mret (PStr "N/A")
  else
    let cache_key := cache_key_of entity_type (py_str E entity_id) in
    hit ← check_cache E cache_key;
    match hit return M pyval with
    | Some name => mret name
    | None =>
      _ ← lift (py_slice8 entity_id);
      name ← _fetch_from_crm_value entity_type entity_id;
      store_entry E cache_key name;;
      mret name
    end.

Definition get_customer_name_value (customer_id : pyval) : M pyval :=
  if negb (truthy customer_id) then mret (PStr "N/A")
  else
    name ← entity_lookup_value "account" customer_id;
    usable ← lift (if truthy name
                   then result_map negb (py_startswith name failure_prefixes)
                   else Ok false);
    if usable : bool then mret name
    else entity_lookup_value "contact" customer_id.

(** Lines 251-258 and 260-267: the condition a name contributes to the
    filter, none when the name is absent, empty or not resolved *)
Definition resolve_filter (entity_type field : string) (name : option string)
    : M (list string) :=
  match name with
  | None => mret []
  | Some n =>
    if String.eqb n "" then mret []
    else
      entity_id ← reverse_lookup E entity_type name;
      if truthy entity_id
      then mret [ field +:+ " eq '" +:+ py_str E entity_id +:+ "'" ]
      else mret []
  end.

Definition opportunities_request (top : Z) (filter_conditions : list string) : request :=
  {| url := api_url E +:+ "/opportunities";
     headers := _get_headers;
     params :=
       [ ("$filter", PStr (String.concat " and " filter_conditions));
         ("$select", PStr "createdon,name,stepname,modifiedon,_actum_divisionid_value,_ownerid_value,estimatedvalue_base,estimatedclosedate,_customerid_value");
         ("$orderby", PStr "createdon desc");
         ("$top", PInt top) ] |}.

(** The body of the loop of lines 289-293 on one opportunity; what is not
    a dictionary has no [get]. *)
Definition enrich (opportunity : pyval) : M pyval :=
  match opportunity return M pyval with
  | PDict d =>
    owner_id ← lift (py_get (PDict d) "_ownerid_value" (PStr ""));
    owner_name ← entity_lookup_value "user" owner_id;
    let d := dict_set "owner_name" owner_name d in
    customer_id ← lift (py_get (PDict d) "_customerid_value" (PStr ""));
    customer_name ← get_customer_name_value customer_id;
    let d := dict_set "customer_name" customer_name d in
    division_id ← lift (py_get (PDict d) "_actum_divisionid_value" (PStr ""));
    division_name ← entity_lookup_value "division" division_id;
    let d := dict_set "division_name" division_name d in
    lift (_clean_opportunity_data (PDict d))
  | _ => lift (Raised AttributeError)
  end.

(** Lines 269-295: the query with the conditions gathered, and the
    enrichment of what it returns *)
Definition fetch_opportunities (top : Z) (filter_conditions : list string) : M pyval :=
  let r := opportunities_request top filter_conditions in
  history ← gets trace;
  '(status_code, body) ← requests_get E r;
  if negb (status_code =? 200) then
    mret (PDict [ ("status", PStr "error");
                  ("status_code", PInt status_code);
                  ("message", PStr "Failed to fetch opportunities");
                  ("response", PStr (response_text history r)) ])
  else
    result ← lift (response_json body);
    value ← lift (py_get result "value" (PList []));
    opportunities ← lift (py_iter value);
    enriched ← for_each enrich opportunities;
    mret (match result with
          | PDict d =>
            match dict_lookup "value" d with
            | Some (PList _) => PDict (dict_set "value" (PList enriched) d)
            | _ => result
            end
          | _ => result
          end).

Definition get_open_opportunities (top : Z) (owner division : option string) : M pyval :=
  owner_filter ← resolve_filter "user" "_ownerid_value" owner;
  division_filter ← resolve_filter "division" "_actum_divisionid_value" division;
  fetch_opportunities top ([ "statecode eq 0" ] ++ owner_filter ++ division_filter).

(** The record [get_divisions] and [get_users] build from one result *)
Definition pick (fields : list string) (record : pyval) : result pyval :=
  result_map PDict
    (result_map_list
       (λ field, result_map (λ v, (field, v)) (py_get record field (PStr "N/A")))
       fields).

(** [get_divisions] and [get_users] differ in the collection, the
    parameters and the fields they keep. *)
Definition list_records (collection : string) (query : list (string * pyval))
    (fields : list string) : M pyval :=
  '(status_code, body) ← requests_get E
                            {| url := api_url E +:+ "/" +:+ collection;
                               headers := _get_headers;
                               params := query |};
  if negb (status_code =? 200) then mret (PList [])
  else
    data ← lift (response_json body);
    value ← lift (py_get data "value" (PList []));
    records ← lift (py_iter value);
    picked ← lift (result_map_list (pick fields) records);
    mret (PList picked).

Definition get_divisions : M pyval :=
  list_records "businessunits"
    [ ("$select", PStr "businessunitid,name,divisionname,createdon,modifiedon,isdisabled,description");
      ("$filter", PStr "isdisabled eq false");
      ("$orderby", PStr "name");
      ("$top", PInt 500) ]
    [ "name"; "divisionname"; "businessunitid" ].

Definition get_users : M pyval :=
  list_records "systemusers"
    [ ("$filter", PStr "isdisabled eq false");
      ("$select", PStr "systemuserid,fullname,domainname,firstname,lastname");
      ("$orderby", PStr "fullname");
      ("$top", PInt 500) ]
    [ "fullname"; "domainname"; "systemuserid" ].

End CRMClient.

(** ** An instance of the environment

    A CRM scripted by a table of answers, a clock that advances one second
    per reading, and an ISO-8601 codec over the proleptic Gregorian
    calendar, on microseconds since 0001-01-01T00:00:00. The codec reads
    the layouts [isoformat] writes ([YYYY-MM-DD], then optionally a
    separator and [HH:MM:SS], [.ffffff] or [.fff], and a [+HH:MM] or
    [-HH:MM] offset) and rejects every other string. *)
Module Sample.

Definition is_leap (y : Z) : bool :=
  (y mod 4 =? 0) && (negb (y mod 100 =? 0) || (y mod 400 =? 0)).

Definition days_in_month (y m : Z) : Z :=
  if m =? 2 then (if is_leap y then 29 else 28)
  else if (m =? 4) || (m =? 6) || (m =? 9) || (m =? 11) then 30
  else 31.

Definition days_before_year (y : Z) : Z :=
  let p := y - 1 in p * 365 + p / 4 - p / 100 + p / 400.

Fixpoint days_before_month_upto (y : Z) (m : nat) : Z :=
  match m with
  | O => 0
  | S m' => days_before_month_upto y m' + days_in_month y (Z.of_nat m)
  end.

(** Days before the first of month [m] in year [y] *)
Definition days_before_month (y m : Z) : Z :=
  days_before_month_upto y (Z.to_nat (m - 1)).

(** The ordinal of a date; 0001-01-01 is day 1. *)
Definition ymd2ord (y m d : Z) : Z :=
  days_before_year y + days_before_month y m + d.

(** The month and day of the [n]-th day (from 0) of year [y] *)
Fixpoint month_day (y : Z) (n : Z) (m : Z) (fuel : nat) : Z * Z :=
  match fuel with
  | O => (m, n + 1)
  | S fuel' =>
    if n <? days_in_month y m then (m, n + 1)
    else month_day y (n - days_in_month y m) (m + 1) fuel'
  end.

Definition ord2ymd (ord : Z) : Z * Z * Z :=
  let n := ord - 1 in
  let n400 := n / 146097 in
  let n := n mod 146097 in
  let n100 := n / 36524 in
  let n := n mod 36524 in
  let n4 := n / 1461 in
  let n := n mod 1461 in
  let n1 := n / 365 in
  let n := n mod 365 in
  let year := n400 * 400 + n100 * 100 + n4 * 4 + n1 + 1 in
  if (n1 =? 4) || (n100 =? 4) then (year - 1, 12, 31)
  else let '(m, d) := month_day year n 1 11 in (year, m, d).

Definition us_per_second : Z := 1000000.
Definition us_per_day : Z := 86400 * us_per_second.

Fixpoint zeros (n : nat) : string :=
  match n with
  | O => ""
  | S n' => String "0"%char (zeros n')
  end.

(** [z] in decimal, padded with zeros to [w] digits *)
Definition pad (w : nat) (z : Z) : string :=
  let s := pretty z in zeros (w - String.length s) +:+ s.

Definition isoformat (us : Z) : string :=
  let '(y, m, d) := ord2ymd (us / us_per_day + 1) in
  let t := us mod us_per_day in
  let secs := t / us_per_second in
  let frac := t mod us_per_second in
  pad 4 y +:+ "-" +:+ pad 2 m +:+ "-" +:+ pad 2 d +:+ "T"
    +:+ pad 2 (secs / 3600) +:+ ":" +:+ pad 2 (secs / 60 mod 60)
    +:+ ":" +:+ pad 2 (secs mod 60)
    +:+ (if frac =? 0 then "" else "." +:+ pad 6 frac).

Definition digit (c : ascii) : option Z :=
  let n := Z.of_nat (nat_of_ascii c) in
  if (48 <=? n) && (n <=? 57) then Some (n - 48) else None.

(** Exactly [n] digits off the front of a string *)
Fixpoint digits (n : nat) (acc : Z) (s : string) : option (Z * string) :=
  match n with
  | O => Some (acc, s)
  | S n' =>
    match s with
    | String c s' => d ← digit c; digits n' (acc * 10 + d) s'
    | EmptyString => None
    end
  end.

Definition expect (c : ascii) (s : string) : option string :=
  match s with
  | String c' s' => if Ascii.eqb c c' then Some s' else None
  | EmptyString => None
  end.

Definition parse_date (s : string) : option (Z * string) :=
  '(y, s) ← digits 4 0 s;
  s ← expect "-"%char s;
  '(m, s) ← digits 2 0 s;
  s ← expect "-"%char s;
  '(d, s) ← digits 2 0 s;
  if (1 <=? y) && (1 <=? m) && (m <=? 12) && (1 <=? d) && (d <=? days_in_month y m)
  then Some ((ymd2ord y m d - 1) * us_per_day, s)
  else None.

Definition parse_hms (s : string) : option (Z * string) :=
  '(h, s) ← digits 2 0 s;
  s ← expect ":"%char s;
  '(mi, s) ← digits 2 0 s;
  s ← expect ":"%char s;
  '(sec, s) ← digits 2 0 s;
  if (h <? 24) && (mi <? 60) && (sec <? 60)
  then Some (((h * 60 + mi) * 60 + sec) * us_per_second, s)
  else None.

Definition parse_fraction (s : string) : Z * string :=
  match s with
  | String "."%char s' =>
    match digits 6 0 s' with
    | Some r => r
    | None =>
      match digits 3 0 s' with
      | Some (ms, s'') => (ms * 1000, s'')
      | None => (0, s)
      end
    end
  | _ => (0, s)
  end.

Definition parse_offset (s : string) : option (option Z) :=
  match s with
  | EmptyString => Some None
  | String c s' =>
    if Ascii.eqb c "+"%char || Ascii.eqb c "-"%char then
      '(h, s) ← digits 2 0 s';
      s ← expect ":"%char s;
      '(mi, s) ← digits 2 0 s;
      match s with
      | EmptyString =>
        let off := (h * 60 + mi) * 60 * us_per_second in
        Some (Some (if Ascii.eqb c "-"%char then - off else off))
      | _ => None
      end
    else None
  end.

Definition fromisoformat (s : string) : option datetime :=
  '(date, s) ← parse_date s;
  match s with
  | EmptyString => Some (Naive date)
  | String _ s =>
    '(time, s) ← parse_hms s;
    let '(frac, s) := parse_fraction s in
    off ← parse_offset s;
    match off with
    | None => Some (Naive (date + time + frac))
    | Some o => Some (Aware (date + time + frac - o))
    end
  end.

(** [repr], without the escapes of quotes and control characters inside
    a string *)
Fixpoint py_repr (v : pyval) : string :=
  match v with
  | PNone => "None"
  | PBool true => "True"
  | PBool false => "False"
  | PInt z => pretty z
  | PStr s => "'" +:+ s +:+ "'"
  | PList l => "[" +:+ String.concat ", " (map py_repr l) +:+ "]"
  | PDict d =>
    "{" +:+ String.concat ", "
              (map (λ kv, "'" +:+ kv.1 +:+ "': " +:+ py_repr kv.2) d) +:+ "}"
  end.

(** The first reading of the clock: 2024-05-01T12:00:00 *)
Definition t0 : Z := ((ymd2ord 2024 5 1 - 1) * 86400 + 12 * 3600) * us_per_second.

Definition clock (n : nat) : Z := t0 + Z.of_nat n * us_per_second.

(** The URL of a request and its [$filter], if it has one *)
Definition request_key (r : request) : string * string :=
  (url r, match assoc "$filter" (params r) with
          | Some (PStr f) => f
          | _ => ""
          end).

Fixpoint script_lookup (k : string * string)
    (script : list (string * string * http_result)) : http_result :=
  match script with
  | [] => HttpResponse 404 None
  | (u, f, a) :: script' =>
    if String.eqb k.1 u && String.eqb k.2 f then a
    else script_lookup k script'
  end.

(** A CRM that answers from a table and with 404 outside it *)
Definition env (script : list (string * string * http_result)) : environment :=
  Build_environment "secret" "https://crm.example/api/data/v9.1"
    (λ _ r, script_lookup (request_key r) script)
    clock fromisoformat isoformat py_repr.

Definition world_of (table : list (string * pyval)) : world :=
  {| cache_data := list_to_map table; trace := []; ticks := 0 |}.

(** Scenarios *)

Definition jane : string := "3f9a2c1d-77aa-4e5b-9c1d-0123456789ab".
Definition acme : string := "7b2e4f90-1c3d-4a5b-8e6f-ba9876543210".

Definition api : string := "https://crm.example/api/data/v9.1".

Definition empty_world : world := world_of [].

(** Every request is answered with 404. *)
Definition crm_empty : environment := env [].

(** The customer is an account without a usable name and a contact named
    Bob. *)
Definition crm_customer (account_body : pyval) : environment :=
  env [ (api +:+ "/accounts(" +:+ acme +:+ ")", "",
         HttpResponse 200 (Some account_body));
        (api +:+ "/contacts(" +:+ acme +:+ ")", "",
         HttpResponse 200 (Some (PDict [ ("fullname", PStr "Bob") ]))) ].

Definition user_record (entity_id name : string) : pyval :=
  PDict [ ("@odata.etag", PStr "W/1"); ("systemuserid", PStr entity_id);
          ("fullname", PStr name) ].

Definition results (l : list pyval) : pyval := PDict [ ("value", PList l) ].

Definition other : string := "c0ffee00-0000-4000-8000-000000000001".

(** The partial filter for Jane Doe matches another user; the exact filter
    is answered by [exact_answer]. *)
Definition crm_users (exact_answer : http_result) : environment :=
  env [ (api +:+ "/systemusers", "fullname eq 'Jane Doe'", exact_answer);
        (api +:+ "/systemusers", "contains(fullname, 'Jane Doe')",
         HttpResponse 200 (Some (results [ user_record other "Jane Doering" ]))) ].

Definition jane_found : http_result :=
  HttpResponse 200 (Some (results [ user_record jane "Jane Doe" ])).

(** A table with one entry for the user Jane *)
Definition jane_cached (cache_entry : pyval) : world :=
  world_of [ ("user_" +:+ jane, cache_entry) ].

Definition entry (name timestamp : string) : pyval :=
  PDict [ ("name", PStr name); ("timestamp", PStr timestamp) ].

(** A table with one entry for the user whose identifier is the number
    12345 *)
Definition number_cached (cache_entry : pyval) : world :=
  world_of [ ("user_12345", cache_entry) ].

(** Entries for Jane written exactly 176 hours before the first reading of
    the clock, and one microsecond later *)
Definition at_expiry : pyval := entry "Jane Doe" "2024-04-24T04:00:00".
Definition before_expiry : pyval := entry "Jane Doe" "2024-04-24T04:00:00.000001".

Definition account_config : fetch_config :=
  {| endpoint := "accounts"; name_field := "name" |}.

End Sample.

(** ** An instance for the client *)
Module SampleClient.

Definition text : list event → request → string := λ _ _, "Service Unavailable".

Definition slice_error : exn := TypeError.

Definition getenv_of (vars : list (string * string)) (name : string) : option string :=
  assoc name vars.

Definition all_set : list (string * string) :=
  [ ("CLIENT_ID", "app"); ("CLIENT_SECRET", "s3cret"); ("TENANT_ID", "tenant");
    ("RESOURCE", "https://crm.example") ].

(** RESOURCE is set to the empty string, TENANT_ID is not set. *)
Definition two_missing : list (string * string) :=
  [ ("CLIENT_ID", "app"); ("CLIENT_SECRET", "s3cret"); ("RESOURCE", "") ].

Definition sales : string := "d1v1s10n-0000-4000-8000-00000000beef".

Definition big_deal : list (string * pyval) :=
  [ ("@odata.etag", PStr "W/2"); ("name", PStr "Big deal");
    ("_ownerid_value", PStr Sample.jane); ("_customerid_value", PStr Sample.acme);
    ("_actum_divisionid_value", PNone); ("opportunityid", PStr "0pp-1") ].

Definition small_deal : list (string * pyval) :=
  [ ("name", PStr "Small deal"); ("_ownerid_value", PStr "") ].

Definition select_opportunities : string :=
  "statecode eq 0 and _ownerid_value eq '" +:+ Sample.jane
    +:+ "' and _actum_divisionid_value eq '" +:+ sales +:+ "'".

(** A CRM with the user Jane Doe, the division Sales, the contact Bob and
    two open opportunities; the filtered query is answered with the first
    one. *)
Definition crm : environment :=
  Sample.env
    [ (Sample.api +:+ "/systemusers", "fullname eq 'Jane Doe'", Sample.jane_found);
      (Sample.api +:+ "/businessunits", "name eq 'Sales'",
       HttpResponse 200
         (Some (Sample.results
                  [ PDict [ ("businessunitid", PStr sales); ("name", PStr "Sales") ] ])));
      (Sample.api +:+ "/systemusers(" +:+ Sample.jane +:+ ")", "",
       HttpResponse 200 (Some (PDict [ ("fullname", PStr "Jane Doe") ])));
      (Sample.api +:+ "/contacts(" +:+ Sample.acme +:+ ")", "",
       HttpResponse 200 (Some (PDict [ ("fullname", PStr "Bob") ])));
      (Sample.api +:+ "/opportunities", "statecode eq 0",
       HttpResponse 200
         (Some (PDict [ ("@odata.context", PStr "opportunities");
                        ("value", PList [ PDict big_deal; PDict small_deal ]) ])));
      (Sample.api +:+ "/opportunities", select_opportunities,
       HttpResponse 200 (Some (Sample.results [ PDict big_deal ])));
      (Sample.api +:+ "/businessunits", "isdisabled eq false",
       HttpResponse 200
         (Some (Sample.results
                  [ PDict [ ("businessunitid", PStr sales); ("name", PStr "Sales");
                            ("divisionname", PNone) ];
                    PDict [ ("name", PStr "Support") ] ]))) ].

(** A CRM that only knows opportunities without identifiers *)
Definition crm_bare : environment :=
  Sample.env
    [ (Sample.api +:+ "/opportunities", "statecode eq 0",
       HttpResponse 200 (Some (Sample.results [ PDict small_deal ]))) ].

(** A table with the entry of Jane at its expiry and an entry of the
    division Sales *)
Definition two_entries : world :=
  Sample.world_of
    [ ("user_" +:+ Sample.jane, Sample.at_expiry);
      ("division_" +:+ sales, Sample.entry "Sales" "2024-05-01T11:00:00") ].

End SampleClient.

(** ** Vocabulary of the statements *)

(** The fallback string of a failed fetch: the reason, then the first
    eight characters of the identifier. *)
Definition fallback (reason entity_id : string) : pyval :=
  PStr (reason +:+ " (" +:+ slice8 entity_id +:+ "...)").

(** The world after [store_entry] has run in [σ] *)
Definition stored (E : environment) (cache_key : string) (name : pyval) (σ : world) : world :=
  let table := <[cache_key := cache_entry_of E name (clock E (ticks σ))]> (cache_data σ) in
  {| cache_data := table; trace := trace σ ++ [Save table]; ticks := S (ticks σ) |}.



(** [s.startswith(('Unknown', 'Not found', 'Error'))] *)
Definition has_failure_prefix (s : string) : bool :=
  existsb (λ p, String.prefix p s) failure_prefixes.

(** What one attempt of [reverse_lookup] makes of the answer of the CRM:
    a match (a 200 response whose first result has a truthy identifier), no
    result (another status, or a 200 response without such a result), or an
    exception. *)
Inductive outcome : Type :=
| Hit (entity_id entity_name : pyval)
| NoResult
| Failure (e : exn).

Definition outcome_of (config : reverse_config) (answer : http_result) : outcome :=
  match answer with
  | HttpError => Failure RequestException
  | HttpResponse code body =>
    if code =? 200 then
      match body with
      | None => Failure JSONDecodeError
      | Some data =>
        match first_match config data with
        | Raised e => Failure e
        | Ok None => NoResult
        | Ok (Some (entity_id, entity_name)) => Hit entity_id entity_name
        end
      end
    else NoResult
  end.

(** The configuration of the type user in [reverse_lookup] *)
Definition user_config : reverse_config :=
  {| r_endpoint := "systemusers"; r_name_field := "fullname";
     r_id_field := "systemuserid" |}.

(** The table last handed to [_save_cache], or [file] when nothing was
    saved yet: what the cache file holds when every write succeeds. *)
Definition file_content (file : gmap string pyval) (t : list event) : gmap string pyval :=
  default file (last (omap (λ e, match e with
                                  | Save table => Some table
                                  | Get _ => None
                                  end) t)).

(** The cache file holds the table. *)
Definition in_sync (file : gmap string pyval) (σ : world) : Prop :=
  file_content file (trace σ) = cache_data σ.

(** An entry as the cache writes it *)
Definition entry_shape (cache_entry : pyval) : Prop :=
  ∃ name timestamp,
    cache_entry = PDict [ ("name", name); ("timestamp", PStr timestamp) ].

(** Every entry of the table is one the cache wrote. *)
Definition table_ok (σ : world) : Prop :=
  ∀ cache_key cache_entry,
    cache_data σ !! cache_key = Some cache_entry → entry_shape cache_entry.

(** What [get_open_opportunities] makes of one opportunity: the three
    names are there, the six raw fields are gone, every other field is as
    it was. *)
Definition enriched_from (opportunity enriched : pyval) : Prop :=
  ∃ d d', opportunity = PDict d ∧ enriched = PDict d'
    ∧ is_Some (dict_lookup "owner_name" d')
    ∧ is_Some (dict_lookup "customer_name" d')
    ∧ is_Some (dict_lookup "division_name" d')
    ∧ (∀ k, k ∈ fields_to_remove → dict_lookup k d' = None)
    ∧ (∀ k, k ∉ fields_to_remove →
         k ∉ [ "owner_name"; "customer_name"; "division_name" ] →
         dict_lookup k d' = dict_lookup k d).

(** The record kept of one result: the fields asked for, with "N/A" for a
    field the result does not have *)
Definition picked (fields : list string) (d : list (string * pyval)) : pyval :=
  PDict (map (λ field, (field, default (PStr "N/A") (dict_lookup field d))) fields).

(** An opportunity after the loop of [get_open_opportunities], given the
    three names *)
Definition with_names (owner_name customer_name division_name : pyval)
    (d : list (string * pyval)) : list (string * pyval) :=
  foldl (λ d field, dict_remove field d)
    (dict_set "division_name" division_name
       (dict_set "customer_name" customer_name
          (dict_set "owner_name" owner_name d)))
    fields_to_remove.

(** The identifier an opportunity has in a field, as the loop reads it *)
Definition id_in (field : string) (d : list (string * pyval)) : pyval :=
  default (PStr "") (dict_lookup field d).

(** An opportunity that has none of the three identifiers *)
Definition without_ids (d : list (string * pyval)) : Prop :=
  truthy (id_in "_ownerid_value" d) = false
  ∧ truthy (id_in "_customerid_value" d) = false
  ∧ truthy (id_in "_actum_divisionid_value" d) = false.

(** A computation that takes nothing back: what was sent or saved before
    it is still there after it, in the same order. *)
Definition grows {A} (m : M A) : Prop :=
  ∀ σ, trace σ `prefix_of` trace (m σ).2.

(** ** Running a computation *)

Ltac unfold_M :=
  unfold try_except, mbind, M_bind, mret, M_ret, lift, gets, modify in *.

Lemma bind_ok {A B} (m : M A) (f : A → M B) σ a σ' :
  m σ = (Ok a, σ') → (m ≫= f) σ = f a σ'.
Proof. intros H. unfold mbind, M_bind. by rewrite H. Qed.

(** ** The configured entity types *)

Lemma reverse_config_supported entity_type config :
  assoc entity_type reverse_entity_configs = Some config →
  entity_type = "user" ∨ entity_type = "division".
Proof.
  unfold reverse_entity_configs. simpl.
  destruct (String.eqb_spec entity_type "user"); [by left|].
  destruct (String.eqb_spec entity_type "division"); [by right|].
  discriminate.
Qed.

Lemma reverse_config_of_supported entity_type :
  entity_type = "user" ∨ entity_type = "division" →
  ∃ config, assoc entity_type reverse_entity_configs = Some config.
Proof. intros [-> | ->]; by eexists. Qed.

Lemma reverse_config_unsupported entity_type :
  entity_type ≠ "user" → entity_type ≠ "division" →
  assoc entity_type reverse_entity_configs = None.
Proof.
  intros Hu Hd.
  destruct (assoc entity_type reverse_entity_configs) as [config|] eqn:Hc; [|done].
  destruct (reverse_config_supported _ _ Hc); contradiction.
Qed.

Lemma append_assoc (a b c : string) : (a +:+ b) +:+ c = a +:+ b +:+ c.
Proof.
  induction a as [|x a IH]; [done|].
  change (String x ((a +:+ b) +:+ c) = String x (a +:+ b +:+ c)).
  by rewrite IH.
Qed.

Section Properties.

Variable E : environment.

(** *** Guards *)

(** C7. With an absent or empty identifier [entity_lookup] and
    [get_customer_name] return "N/A" and leave the world as it was: no
    request is sent and the table is not touched. *)
Theorem empty_id_gives_NA (entity_type : string) (σ : world) :
  entity_lookup E entity_type None σ = (Ok (PStr "N/A"), σ)
  ∧ entity_lookup E entity_type (Some "") σ = (Ok (PStr "N/A"), σ)
  ∧ get_customer_name E None σ = (Ok (PStr "N/A"), σ)
  ∧ get_customer_name E (Some "") σ = (Ok (PStr "N/A"), σ).
Proof. repeat split. Qed.

(** C8. [reverse_lookup] on a type other than user and division, or with
    an absent or empty name, returns [None] without raising and leaves
    the world as it was: no request is sent. *)
Theorem reverse_lookup_unsupported_or_empty
    (entity_type : string) (search_name : option string) (σ : world) :
  (entity_type ≠ "user" → entity_type ≠ "division" →
     reverse_lookup E entity_type search_name σ = (Ok PNone, σ))
  ∧ reverse_lookup E entity_type None σ = (Ok PNone, σ)
  ∧ reverse_lookup E entity_type (Some "") σ = (Ok PNone, σ).
Proof.
  split; [|by split].
  intros Hu Hd. unfold reverse_lookup.
  destruct search_name as [name|]; [|done].
  destruct (String.eqb name ""); [done|].
  by rewrite reverse_config_unsupported.
Qed.

(** *** The remote fetch *)

Lemma fetch_unknown_type entity_type entity_id σ :
  assoc entity_type fetch_entity_configs = None →
  _fetch_from_crm E entity_type entity_id σ
  = (Ok (PStr ("Unknown type (" +:+ entity_type +:+ ")")), σ).
Proof. intros H. unfold _fetch_from_crm. by rewrite H. Qed.

Lemma fetch_total entity_type entity_id σ :
  ∃ name σ', _fetch_from_crm E entity_type entity_id σ = (Ok name, σ').
Proof.
  unfold _fetch_from_crm.
  destruct (assoc entity_type fetch_entity_configs) as [config|]; [|by eexists _, _].
  unfold_M. unfold requests_get.
  destruct (remote E (trace σ) (fetch_request E config entity_id))
    as [|code body]; [by eexists _, _|].
  destruct (code =? 200).
  - destruct body as [[]|]; simpl; by eexists _, _.
  - destruct (code =? 404); by eexists _, _.
Qed.

Lemma fetch_configured entity_type entity_id config σ :
  assoc entity_type fetch_entity_configs = Some config →
  let r := fetch_request E config entity_id in
  let fetched name :=
    _fetch_from_crm E entity_type entity_id σ = (Ok name, emit (Get r) σ) in
  (remote E (trace σ) r = HttpError → fetched (fallback "Error" entity_id))
  ∧ (∀ body, remote E (trace σ) r = HttpResponse 404 body →
       fetched (fallback "Not found" entity_id))
  ∧ (∀ code body, remote E (trace σ) r = HttpResponse code body →
       code ≠ 200 → code ≠ 404 →
       fetched (fallback ("Error " +:+ pretty code) entity_id))
  ∧ (remote E (trace σ) r = HttpResponse 200 None →
       fetched (fallback "Error" entity_id))
  ∧ (∀ data, remote E (trace σ) r = HttpResponse 200 (Some data) →
       (∀ d, data ≠ PDict d) → fetched (fallback "Error" entity_id))
  ∧ (∀ d, remote E (trace σ) r = HttpResponse 200 (Some (PDict d)) →
       fetched (match dict_lookup (name_field config) d with
                | Some name => name
                | None => fallback "No name" entity_id
                end)).
Proof.
  intros Hc r fetched. subst fetched r.
  unfold _fetch_from_crm, fallback. rewrite Hc.
  unfold_M. unfold requests_get.
  repeat split.
  - by intros ->.
  - by intros body ->.
  - intros code body -> H200 H404.
    destruct (Z.eqb_spec code 200); [done|].
    destruct (Z.eqb_spec code 404); [done|].
    by rewrite append_assoc.
  - by intros ->.
  - intros data -> Hd. simpl. destruct data; try done. by destruct (Hd d).
  - by intros d ->.
Qed.

(** C1, amended. [_fetch_from_crm] never raises. For a type that is not
    configured it returns the string Unknown type (<entity_type>), which
    names the type and not the identifier, and sends no request. For a
    configured type every failure gives a fallback string made of the
    reason and the first eight characters of the identifier: Error when
    the request raises or a 200 body cannot be used, Not found on 404,
    Error <code> on another status, No name when a 200 body lacks the name
    field. *)
Theorem fetch_from_crm_fallbacks (entity_type entity_id : string) (σ : world) :
  (∃ name σ', _fetch_from_crm E entity_type entity_id σ = (Ok name, σ'))
  ∧ (assoc entity_type fetch_entity_configs = None →
       _fetch_from_crm E entity_type entity_id σ
       = (Ok (PStr ("Unknown type (" +:+ entity_type +:+ ")")), σ))
  ∧ (∀ config, assoc entity_type fetch_entity_configs = Some config →
       let r := fetch_request E config entity_id in
       let fetched name :=
         _fetch_from_crm E entity_type entity_id σ = (Ok name, emit (Get r) σ) in
       (remote E (trace σ) r = HttpError → fetched (fallback "Error" entity_id))
       ∧ (∀ body, remote E (trace σ) r = HttpResponse 404 body →
            fetched (fallback "Not found" entity_id))
       ∧ (∀ code body, remote E (trace σ) r = HttpResponse code body →
            code ≠ 200 → code ≠ 404 →
            fetched (fallback ("Error " +:+ pretty code) entity_id))
       ∧ (remote E (trace σ) r = HttpResponse 200 None →
            fetched (fallback "Error" entity_id))
       ∧ (∀ data, remote E (trace σ) r = HttpResponse 200 (Some data) →
            (∀ d, data ≠ PDict d) → fetched (fallback "Error" entity_id))
       ∧ (∀ d, remote E (trace σ) r = HttpResponse 200 (Some (PDict d)) →
            dict_lookup (name_field config) d = None →
            fetched (fallback "No name" entity_id))).
Proof.
  split; [apply fetch_total|]. split; [apply fetch_unknown_type|].
  intros config Hc r fetched.
  destruct (fetch_configured entity_type entity_id config σ Hc)
    as (H1 & H2 & H3 & H4 & H5 & H6).
  repeat split; try done.
  intros d Hr Hn. subst fetched. simpl. specialize (H6 d Hr). by rewrite Hn in H6.
Qed.

(** *** Validity of an entry *)

Lemma fetch_and_store_run entity_type entity_id σ name σf :
  _fetch_from_crm E entity_type entity_id σ = (Ok name, σf) →
  fetch_and_store E entity_type entity_id σ
  = (Ok name, stored E (cache_key_of entity_type entity_id) name σf).
Proof. intros H. unfold fetch_and_store. by rewrite (bind_ok _ _ _ _ _ H). Qed.

Lemma fetch_and_store_total entity_type entity_id σ :
  ∃ name σf,
    _fetch_from_crm E entity_type entity_id σ = (Ok name, σf)
    ∧ fetch_and_store E entity_type entity_id σ
      = (Ok name, stored E (cache_key_of entity_type entity_id) name σf).
Proof.
  destruct (fetch_total entity_type entity_id σ) as (name & σf & H).
  exists name, σf. split; [done|]. by apply fetch_and_store_run.
Qed.

Lemma valid_naive_timestamp d s t σ :
  dict_lookup "timestamp" d = Some (PStr s) →
  fromisoformat E s = Some (Naive t) →
  _is_cache_entry_valid E (PDict d) σ
  = (Ok (bool_decide (clock E (ticks σ) - t < timedelta_hours CACHE_EXPIRY_HOURS)),
     tick σ).
Proof.
  intros Hts Hiso. unfold _is_cache_entry_valid.
  destruct d as [|kv d]; [done|]. remember (kv :: d) as d' eqn:Hd'.
  assert (truthy (PDict d') = true) as -> by by rewrite Hd'.
  unfold_M. unfold py_in, py_getitem, datetime_fromisoformat, datetime_now.
  rewrite Hts, Hiso. simpl. do 2 f_equal.
  apply bool_decide_ext. lia.
Qed.



(** An entry found invalid is deleted, then the fetch runs. *)
Lemma entity_lookup_invalid entity_type entity_id cache_entry σ σ1 :
  entity_id ≠ "" →
  cache_data σ !! cache_key_of entity_type entity_id = Some cache_entry →
  _is_cache_entry_valid E cache_entry σ = (Ok false, σ1) →
  entity_lookup E entity_type (Some entity_id) σ
  = fetch_and_store E entity_type entity_id
      (set_cache_data (delete (cache_key_of entity_type entity_id)) σ1).
Proof.
  intros Hid Hc Hv. unfold entity_lookup, check_cache.
  apply String.eqb_neq in Hid. rewrite Hid.
  unfold_M. rewrite Hc, Hv. done.
Qed.

(** Lines 89-96 on an entry found invalid: no name is handed out, and the
    entry is gone from the table when the check returns. *)
Lemma check_cache_invalid cache_key cache_entry σ σ1 :
  cache_data σ !! cache_key = Some cache_entry →
  _is_cache_entry_valid E cache_entry σ = (Ok false, σ1) →
  check_cache E cache_key σ = (Ok None, set_cache_data (delete cache_key) σ1).
Proof. intros Hc Hv. unfold check_cache. unfold_M. by rewrite Hc, Hv. Qed.

(** Line 96 on an identifier that has no slice: the exception leaves
    [entity_lookup] in the state the check of the cache left. *)
Lemma entity_lookup_value_unsliceable slice_error entity_type entity_id e σ σc :
  truthy entity_id = true →
  py_slice8 slice_error entity_id = Raised e →
  check_cache E (cache_key_of entity_type (py_str E entity_id)) σ = (Ok None, σc) →
  entity_lookup_value E slice_error entity_type entity_id σ = (Raised e, σc).
Proof.
  intros Ht Hs Hc. unfold entity_lookup_value. rewrite Ht. simpl.
  rewrite (bind_ok _ _ _ _ _ Hc). unfold_M. by rewrite Hs.
Qed.


(** C3. An entry whose timestamp reads as the naive time [t] is valid
    exactly when [now - t] is less than 176 hours, [now] being the
    reading of the clock at the check. When it is not, the check of the
    cache (lines 89-96) hands out no name and returns with the entry
    deleted from the table, nothing else changed but the clock read;
    [entity_lookup] then fetches, from that table, and returns the name
    fetched. On an identifier that cannot be sliced the deletion is all
    that happens: line 96 raises with the entry gone, before any request
    and before any save. *)
Theorem entry_valid_iff_younger_than_expiry
    (entity_type : string) (d : list (string * pyval))
    (s : string) (t : Z) (σ : world) :
  dict_lookup "timestamp" d = Some (PStr s) →
  fromisoformat E s = Some (Naive t) →
  let now := clock E (ticks σ) in
  _is_cache_entry_valid E (PDict d) σ
  = (Ok (bool_decide (now - t < timedelta_hours CACHE_EXPIRY_HOURS)), tick σ)
  ∧ (timedelta_hours CACHE_EXPIRY_HOURS ≤ now - t →
     (∀ cache_key,
        cache_data σ !! cache_key = Some (PDict d) →
        check_cache E cache_key σ
        = (Ok None, set_cache_data (delete cache_key) (tick σ)))
     ∧ (∀ entity_id,
          entity_id ≠ "" →
          cache_data σ !! cache_key_of entity_type entity_id = Some (PDict d) →
          ∃ name σf,
            _fetch_from_crm E entity_type entity_id
              (set_cache_data (delete (cache_key_of entity_type entity_id)) (tick σ))
            = (Ok name, σf)
            ∧ entity_lookup E entity_type (Some entity_id) σ
              = (Ok name, stored E (cache_key_of entity_type entity_id) name σf))
     ∧ (∀ slice_error entity_id e,
          truthy entity_id = true →
          py_slice8 slice_error entity_id = Raised e →
          cache_data σ !! cache_key_of entity_type (py_str E entity_id)
          = Some (PDict d) →
          entity_lookup_value E slice_error entity_type entity_id σ
          = (Raised e,
             set_cache_data
               (delete (cache_key_of entity_type (py_str E entity_id))) (tick σ)))).
Proof.
  intros Hts Hiso now.
  pose proof (valid_naive_timestamp d s t σ Hts Hiso) as Hv.
  split; [done|]. intros Hexp.
  rewrite bool_decide_false in Hv by (subst now; lia).
  split; [|split].
  - intros cache_key Hc. by apply (check_cache_invalid _ (PDict d)).
  - intros entity_id Hid Hc.
    rewrite (entity_lookup_invalid _ _ _ _ _ Hid Hc Hv).
    apply fetch_and_store_total.
  - intros slice_error entity_id e Ht Hs Hc.
    apply entity_lookup_value_unsliceable; [done..|].
    by apply (check_cache_invalid _ (PDict d)).
Qed.


(** *** The name of a customer *)

Lemma entity_lookup_miss entity_type entity_id σ :
  entity_id ≠ "" →
  cache_data σ !! cache_key_of entity_type entity_id = None →
  entity_lookup E entity_type (Some entity_id) σ
  = fetch_and_store E entity_type entity_id σ.
Proof.
  intros Hid Hc. unfold entity_lookup, check_cache.
  apply String.eqb_neq in Hid. rewrite Hid.
  unfold_M. by rewrite Hc.
Qed.

Lemma get_customer_name_usable customer_id s σ σ1 :
  customer_id ≠ "" →
  entity_lookup E "account" (Some customer_id) σ = (Ok (PStr s), σ1) →
  s ≠ "" → has_failure_prefix s = false →
  get_customer_name E (Some customer_id) σ = (Ok (PStr s), σ1).
Proof.
  intros Hid Ha Hs Hp. unfold get_customer_name.
  apply String.eqb_neq in Hid, Hs. rewrite Hid.
  rewrite (bind_ok _ _ _ _ _ Ha). unfold_M.
  unfold truthy, py_startswith, result_map. fold (has_failure_prefix s).
  by rewrite Hs, Hp.
Qed.

Lemma get_customer_name_falls_through customer_id name σ σ1 :
  customer_id ≠ "" →
  entity_lookup E "account" (Some customer_id) σ = (Ok name, σ1) →
  truthy name = false ∨ (∃ s, name = PStr s ∧ has_failure_prefix s = true) →
  get_customer_name E (Some customer_id) σ
  = entity_lookup E "contact" (Some customer_id) σ1.
Proof.
  intros Hid Ha Hn. unfold get_customer_name.
  apply String.eqb_neq in Hid. rewrite Hid.
  rewrite (bind_ok _ _ _ _ _ Ha). unfold_M.
  destruct Hn as [Hf | (s & -> & Hp)].
  - by rewrite Hf.
  - unfold truthy, py_startswith, result_map. fold (has_failure_prefix s).
    rewrite Hp. by destruct (negb (String.eqb s "")).
Qed.

Lemma no_name_is_usable entity_id :
  ∃ s, fallback "No name" entity_id = PStr s ∧ s ≠ ""
       ∧ has_failure_prefix s = false.
Proof. eexists. split; [done|]. split; [|done]. discriminate. Qed.

(** C2, amended. [get_customer_name] looks the account up first. When the
    result is a string that is not empty and does not begin with Unknown,
    Not found or Error, it is returned and nothing else is done. When the
    result is falsy ([None], the empty string) or begins with one of the
    three prefixes, the result of the contact lookup, run after the account
    lookup, is returned as it is. *)
Theorem get_customer_name_account_then_contact
    (customer_id : string) (name : pyval) (σ σ1 : world) :
  customer_id ≠ "" →
  entity_lookup E "account" (Some customer_id) σ = (Ok name, σ1) →
  (∀ s, name = PStr s → s ≠ "" → has_failure_prefix s = false →
     get_customer_name E (Some customer_id) σ = (Ok name, σ1))
  ∧ ((∃ s, name = PStr s ∧ has_failure_prefix s = true) →
     get_customer_name E (Some customer_id) σ
     = entity_lookup E "contact" (Some customer_id) σ1)
  ∧ (truthy name = false →
     get_customer_name E (Some customer_id) σ
     = entity_lookup E "contact" (Some customer_id) σ1).
Proof.
  intros Hid Ha. repeat split.
  - intros s -> Hs Hp. by apply get_customer_name_usable.
  - intros Hp. eapply get_customer_name_falls_through; eauto.
  - intros Hf. eapply get_customer_name_falls_through; eauto.
Qed.

(** C9. When the account lookup gives a falsy value, [get_customer_name]
    goes on to the contact lookup. The fallback No name (...) begins with
    none of the three prefixes: when the account lookup gives it,
    [get_customer_name] returns it and does nothing more; in particular,
    when the account is not cached and the CRM answers 200 with an object
    that has no name field, the only request sent is the one for the
    account. *)
Theorem customer_name_falsy_and_no_name (customer_id : string) (σ : world) :
  customer_id ≠ "" →
  (∀ name σ1,
     entity_lookup E "account" (Some customer_id) σ = (Ok name, σ1) →
     truthy name = false →
     get_customer_name E (Some customer_id) σ
     = entity_lookup E "contact" (Some customer_id) σ1)
  ∧ (∀ σ1,
       entity_lookup E "account" (Some customer_id) σ
       = (Ok (fallback "No name" customer_id), σ1) →
       get_customer_name E (Some customer_id) σ
       = (Ok (fallback "No name" customer_id), σ1))
  ∧ (∀ d,
       let r := fetch_request E {| endpoint := "accounts"; name_field := "name" |}
                  customer_id in
       cache_data σ !! cache_key_of "account" customer_id = None →
       remote E (trace σ) r = HttpResponse 200 (Some (PDict d)) →
       dict_lookup "name" d = None →
       ∃ σ1,
         get_customer_name E (Some customer_id) σ
         = (Ok (fallback "No name" customer_id), σ1)
         ∧ requests_of (trace σ1) = requests_of (trace σ) ++ [r]).
Proof.
  intros Hid.
  assert (∀ σ1,
    entity_lookup E "account" (Some customer_id) σ
    = (Ok (fallback "No name" customer_id), σ1) →
    get_customer_name E (Some customer_id) σ
    = (Ok (fallback "No name" customer_id), σ1)) as Hno.
  { intros σ1 Ha.
    destruct (no_name_is_usable customer_id) as (s & Hs & Hne & Hp).
    rewrite Hs in *. by apply get_customer_name_usable. }
  repeat split; [|done|].
  - intros name σ1 Ha Hf. eapply get_customer_name_falls_through; eauto.
  - intros d r Hc Hr Hn.
    destruct (fetch_configured "account" customer_id
                {| endpoint := "accounts"; name_field := "name" |} σ eq_refl)
      as (_ & _ & _ & _ & _ & H6).
    specialize (H6 d Hr). simpl in H6. rewrite Hn in H6.
    eexists. split.
    + apply Hno. rewrite entity_lookup_miss by done.
      by apply fetch_and_store_run.
    + unfold requests_of, stored, emit. simpl.
      rewrite !omap_app. simpl. by rewrite app_nil_r.
Qed.

(** *** The reverse lookup *)

Lemma search_attempt_run entity_type config filter_expr σ :
  let r := search_request E config filter_expr in
  search_attempt E entity_type config filter_expr σ
  = match outcome_of config (remote E (trace σ) r) with
    | Hit entity_id entity_name =>
      (Ok (Some entity_id),
       stored E (cache_key_of entity_type (py_str E entity_id)) entity_name
         (emit (Get r) σ))
    | NoResult => (Ok None, emit (Get r) σ)
    | Failure e => (Raised e, emit (Get r) σ)
    end.
Proof.
  intros r. subst r. unfold search_attempt, outcome_of.
  unfold_M. unfold requests_get.
  destruct (remote E (trace σ) (search_request E config filter_expr))
    as [|code body]; [done|].
  destruct (code =? 200); [|done].
  destruct body as [data|]; [|done]. simpl.
  destruct (first_match config data) as [[[entity_id entity_name]|]|]; done.
Qed.

Lemma reverse_lookup_run entity_type search_name config σ :
  search_name ≠ "" →
  assoc entity_type reverse_entity_configs = Some config →
  reverse_lookup E entity_type (Some search_name) σ
  = search_loop E entity_type config (search_filters config search_name) σ.
Proof.
  intros Hn Hc. unfold reverse_lookup.
  apply String.eqb_neq in Hn. by rewrite Hn, Hc.
Qed.

Lemma search_loop_total entity_type config filters σ :
  ∃ v σ', search_loop E entity_type config filters σ = (Ok v, σ').
Proof.
  revert σ. induction filters as [|[filter_type filter_expr] rest IH]; intros σ.
  - by eexists _, _.
  - simpl. destruct (search_attempt E entity_type config filter_expr σ)
      as [[[entity_id|]|e] σ']; [by eexists _, _|apply IH|by eexists _, _].
Qed.

Lemma reverse_lookup_total entity_type search_name σ :
  ∃ v σ', reverse_lookup E entity_type search_name σ = (Ok v, σ').
Proof.
  unfold reverse_lookup.
  destruct search_name as [name|]; [|by eexists _, _].
  destruct (String.eqb name ""); [by eexists _, _|].
  destruct (assoc entity_type reverse_entity_configs); [|by eexists _, _].
  apply search_loop_total.
Qed.

(** C4, amended. When an attempt of [reverse_lookup] raises (the request
    fails, the body of a 200 response cannot be decoded or does not have
    the expected shape), the loop is left and [None] is returned. After
    such a failure of the exact attempt only the exact request has been
    sent; a failure of the partial attempt, reached after an exact attempt
    without result, gives [None] as well. A response with a status other
    than 200 is not such a failure: the attempt has no result and the loop
    goes on. [reverse_lookup] never raises. *)
Theorem reverse_lookup_aborts_on_failure
    (entity_type search_name : string) (config : reverse_config) (σ : world) :
  search_name ≠ "" →
  assoc entity_type reverse_entity_configs = Some config →
  let exact := search_request E config (exact_filter config search_name) in
  let partial := search_request E config (partial_filter config search_name) in
  let σ1 := emit (Get exact) σ in
  (∀ e, outcome_of config (remote E (trace σ) exact) = Failure e →
     reverse_lookup E entity_type (Some search_name) σ = (Ok PNone, σ1)
     ∧ requests_of (trace σ1) = requests_of (trace σ) ++ [exact])
  ∧ (∀ e, outcome_of config (remote E (trace σ) exact) = NoResult →
       outcome_of config (remote E (trace σ1) partial) = Failure e →
       reverse_lookup E entity_type (Some search_name) σ
       = (Ok PNone, emit (Get partial) σ1))
  ∧ (remote E (trace σ) exact = HttpError →
     outcome_of config (remote E (trace σ) exact) = Failure RequestException)
  ∧ (∀ code body, remote E (trace σ) exact = HttpResponse code body →
       code ≠ 200 →
       outcome_of config (remote E (trace σ) exact) = NoResult
       ∧ reverse_lookup E entity_type (Some search_name) σ
         = search_loop E entity_type config
             [ ("partial", partial_filter config search_name) ] σ1)
  ∧ (∃ v σ', reverse_lookup E entity_type (Some search_name) σ = (Ok v, σ')).
Proof.
  intros Hn Hc exact partial σ1.
  split; [|split; [|split; [|split; [|apply reverse_lookup_total]]]].
  - intros e He. rewrite (reverse_lookup_run _ _ _ _ Hn Hc). simpl.
    rewrite search_attempt_run. fold exact. rewrite He. split; [done|].
    unfold requests_of, σ1, emit. simpl. by rewrite omap_app.
  - intros e He Hp. rewrite (reverse_lookup_run _ _ _ _ Hn Hc). simpl.
    rewrite search_attempt_run. fold exact. rewrite He.
    rewrite search_attempt_run. fold partial σ1. by rewrite Hp.
  - by intros ->.
  - intros code body Hr Hcode.
    assert (outcome_of config (remote E (trace σ) exact) = NoResult) as He.
    { rewrite Hr. simpl. by destruct (Z.eqb_spec code 200). }
    split; [done|].
    rewrite (reverse_lookup_run _ _ _ _ Hn Hc).
    unfold search_filters.
    change (search_loop E entity_type config
              (("exact", exact_filter config search_name)
                 :: [("partial", partial_filter config search_name)]) σ)
      with (match search_attempt E entity_type config
                    (exact_filter config search_name) σ with
            | (Ok (Some entity_id), σ') => (Ok entity_id, σ')
            | (Ok None, σ') =>
              search_loop E entity_type config
                [("partial", partial_filter config search_name)] σ'
            | (Raised _, σ') => (Ok PNone, σ')
            end).
    rewrite search_attempt_run. fold exact. by rewrite He.
Qed.

(** C5. For a supported type and a name that is not empty, both requests
    of [reverse_lookup] ask for one result ([$top] is 1). The exact filter
    is sent first; when it gives a match, its identifier is returned, the
    pair is written to the cache, and the partial filter is never sent.
    Only when the exact attempt gives no result is the partial filter sent,
    and then its match, if any, is returned; without one [None] is
    returned. *)
Theorem reverse_lookup_exact_before_partial
    (entity_type search_name : string) (config : reverse_config) (σ : world) :
  search_name ≠ "" →
  assoc entity_type reverse_entity_configs = Some config →
  let exact := search_request E config (exact_filter config search_name) in
  let partial := search_request E config (partial_filter config search_name) in
  let σ1 := emit (Get exact) σ in
  let σ2 := emit (Get partial) σ1 in
  let key entity_id := cache_key_of entity_type (py_str E entity_id) in
  (assoc "$top" (params exact) = Some (PInt 1)
   ∧ assoc "$top" (params partial) = Some (PInt 1)
   ∧ assoc "$filter" (params exact)
     = Some (PStr (r_name_field config +:+ " eq '" +:+ search_name +:+ "'"))
   ∧ assoc "$filter" (params partial)
     = Some (PStr ("contains(" +:+ r_name_field config +:+ ", '"
                     +:+ search_name +:+ "')")))
  ∧ (∀ entity_id entity_name,
       outcome_of config (remote E (trace σ) exact) = Hit entity_id entity_name →
       reverse_lookup E entity_type (Some search_name) σ
       = (Ok entity_id, stored E (key entity_id) entity_name σ1)
       ∧ requests_of (trace (stored E (key entity_id) entity_name σ1))
         = requests_of (trace σ) ++ [exact])
  ∧ (outcome_of config (remote E (trace σ) exact) = NoResult →
       (∀ entity_id entity_name,
          outcome_of config (remote E (trace σ1) partial) = Hit entity_id entity_name →
          reverse_lookup E entity_type (Some search_name) σ
          = (Ok entity_id, stored E (key entity_id) entity_name σ2))
       ∧ (outcome_of config (remote E (trace σ1) partial) = NoResult →
          reverse_lookup E entity_type (Some search_name) σ = (Ok PNone, σ2))).
Proof.
  intros Hn Hc exact partial σ1 σ2 key.
  split; [done|]. split.
  - intros entity_id entity_name He.
    rewrite (reverse_lookup_run _ _ _ _ Hn Hc). simpl.
    rewrite search_attempt_run. fold exact. rewrite He. split; [done|].
    unfold requests_of, stored, σ1, emit. simpl.
    rewrite !omap_app. simpl. by rewrite app_nil_r.
  - intros He. split.
    + intros entity_id entity_name Hp.
      rewrite (reverse_lookup_run _ _ _ _ Hn Hc). simpl.
      rewrite search_attempt_run. fold exact. rewrite He.
      rewrite search_attempt_run. fold partial σ1. by rewrite Hp.
    + intros Hp.
      rewrite (reverse_lookup_run _ _ _ _ Hn Hc). simpl.
      rewrite search_attempt_run. fold exact. rewrite He.
      rewrite search_attempt_run. fold partial σ1. by rewrite Hp.
Qed.

(** *** A reverse lookup followed by a lookup *)

Lemma outcome_hit_inv config answer entity_id entity_name :
  outcome_of config answer = Hit entity_id entity_name →
  ∃ data, answer = HttpResponse 200 (Some data)
          ∧ first_match config data = Ok (Some (entity_id, entity_name)).
Proof.
  unfold outcome_of. destruct answer as [|code body]; [done|].
  destruct (Z.eqb_spec code 200) as [->|]; [|done].
  destruct body as [data|]; [|done].
  destruct (first_match config data) as [[[i n]|]|] eqn:Hf; try done.
  intros [= -> ->]. by exists data.
Qed.

Lemma first_match_truthy config data entity_id entity_name :
  first_match config data = Ok (Some (entity_id, entity_name)) →
  truthy entity_id = true.
Proof.
  unfold first_match.
  destruct (py_get data "value" (PList [])) as [results|]; [|done].
  destruct (truthy results); [|done].
  destruct (py_first results) as [result|]; [|done].
  destruct (py_get result (r_id_field config) PNone) as [i|]; [|done].
  destruct (py_get result (r_name_field config) PNone) as [n|]; [|done].
  destruct (truthy i) eqn:Ht; [|done]. by intros [= <- _].
Qed.

Lemma entity_lookup_hit entity_type entity_id cache_entry name σ σ1 :
  entity_id ≠ "" →
  cache_data σ !! cache_key_of entity_type entity_id = Some cache_entry →
  _is_cache_entry_valid E cache_entry σ = (Ok true, σ1) →
  py_getitem cache_entry "name" = Ok name →
  entity_lookup E entity_type (Some entity_id) σ = (Ok name, σ1).
Proof.
  intros Hid Hc Hv Hn. unfold entity_lookup, check_cache.
  apply String.eqb_neq in Hid. rewrite Hid.
  unfold_M. by rewrite Hc, Hv, Hn.
Qed.

(** What a successful reverse lookup leaves behind *)
Lemma reverse_lookup_found entity_type search_name config entity_id σ σ1 :
  assoc entity_type reverse_entity_configs = Some config →
  reverse_lookup E entity_type (Some search_name) σ = (Ok entity_id, σ1) →
  entity_id ≠ PNone →
  ∃ filter_expr history data entity_name σ0,
    filter_expr ∈ [exact_filter config search_name;
                   partial_filter config search_name]
    ∧ remote E history (search_request E config filter_expr)
      = HttpResponse 200 (Some data)
    ∧ first_match config data = Ok (Some (entity_id, entity_name))
    ∧ ticks σ0 = ticks σ
    ∧ σ1 = stored E (cache_key_of entity_type (py_str E entity_id)) entity_name σ0.
Proof.
  intros Hc Hr Hid. unfold reverse_lookup in Hr. rewrite Hc in Hr.
  destruct (String.eqb search_name ""); [by inversion Hr|].
  simpl in Hr. rewrite search_attempt_run in Hr.
  destruct (outcome_of config (remote E (trace σ)
              (search_request E config (exact_filter config search_name))))
    as [i n| |e] eqn:He.
  - inversion Hr; subst.
    destruct (outcome_hit_inv _ _ _ _ He) as (data & Ha & Hf).
    exists (exact_filter config search_name), (trace σ), data, n.
    eexists (emit _ σ). split; [set_solver|]. by repeat split.
  - rewrite search_attempt_run in Hr.
    match type of Hr with context [outcome_of config ?a] =>
      destruct (outcome_of config a) as [i n| |e] eqn:Hp end.
    + inversion Hr; subst.
      destruct (outcome_hit_inv _ _ _ _ Hp) as (data & Ha & Hf).
      exists (partial_filter config search_name). eexists _, data, n.
      eexists (emit _ (emit _ σ)). split; [set_solver|]. by repeat split.
    + inversion Hr; by subst.
    + inversion Hr; by subst.
  - inversion Hr; by subst.
Qed.

(** C6. When [reverse_lookup] on the type user returns the identifier [x],
    the name of the record it matched is in the cache under [x] with the
    time of the write; provided that timestamp reads back and the next
    reading of the clock is less than 176 hours later, [entity_lookup] on
    [x] returns that name from the entry, reads the clock once and sends
    no request. *)
Theorem reverse_then_forward_hits_cache (search_name x : string) (σ σ1 : world) :
  reverse_lookup E "user" (Some search_name) σ = (Ok (PStr x), σ1) →
  fromisoformat E (isoformat E (clock E (ticks σ)))
  = Some (Naive (clock E (ticks σ))) →
  clock E (ticks σ1) - clock E (ticks σ) < timedelta_hours CACHE_EXPIRY_HOURS →
  ∃ display,
    (∃ filter_expr history data,
       filter_expr ∈ [exact_filter user_config search_name;
                      partial_filter user_config search_name]
       ∧ remote E history (search_request E user_config filter_expr)
         = HttpResponse 200 (Some data)
       ∧ first_match user_config data = Ok (Some (PStr x, display)))
    ∧ cache_data σ1 !! cache_key_of "user" x
      = Some (cache_entry_of E display (clock E (ticks σ)))
    ∧ entity_lookup E "user" (Some x) σ1 = (Ok display, tick σ1)
    ∧ trace (tick σ1) = trace σ1.
Proof.
  intros Hr Hiso Hsoon.
  destruct (reverse_lookup_found "user" search_name user_config (PStr x) σ σ1
              eq_refl Hr) as (f & h & data & display & σ0 & Hf & Ha & Hm & Ht & ->);
    [done|].
  exists display.
  assert (cache_data (stored E (cache_key_of "user" x) display σ0)
            !! cache_key_of "user" x
          = Some (cache_entry_of E display (clock E (ticks σ)))) as Hentry.
  { unfold stored. simpl. rewrite Ht. apply lookup_insert_eq. }
  split; [by exists f, h, data|]. split; [done|]. split; [|done].
  simpl in Hsoon |- *.
  eapply entity_lookup_hit; [| exact Hentry | | done].
  - apply first_match_truthy in Hm. simpl in Hm. intros ->. done.
  - unfold cache_entry_of.
    rewrite (valid_naive_timestamp
               [("name", display);
                ("timestamp", PStr (isoformat E (clock E (ticks σ))))]
               _ _ _ eq_refl Hiso).
    by rewrite bool_decide_true by done.
Qed.

End Properties.

(** ** The statements on the sample CRM *)

(** The sample codec on a few strings *)
Example sample_isoformat :
  Sample.isoformat Sample.t0 = "2024-05-01T12:00:00"
  ∧ Sample.fromisoformat "2024-05-01T12:00:00" = Some (Naive Sample.t0)
  ∧ Sample.fromisoformat "2024-05-01T12:00:00.250000" = Some (Naive (Sample.t0 + 250000))
  ∧ Sample.isoformat (Sample.t0 + 250000) = "2024-05-01T12:00:00.250000"
  ∧ Sample.fromisoformat "2024-02-30T12:00:00" = None
  ∧ Sample.fromisoformat "2024-05-01T12:00:00+02:00" = Some (Aware (Sample.t0 - 7200000000))
  ∧ Sample.fromisoformat "yesterday" = None.
Proof. vm_compute. repeat split. Qed.

(** C1 as stated fails: with a type that is not configured the fallback
    names the type; the first eight characters of the identifier are not in
    it. *)
Lemma unknown_type_fallback_names_the_type :
  _fetch_from_crm Sample.crm_empty "team" Sample.jane Sample.empty_world
  = (Ok (PStr "Unknown type (team)"), Sample.empty_world)
  ∧ slice8 Sample.jane = "3f9a2c1d"
  ∧ str_contains (slice8 Sample.jane) "Unknown type (team)" = false.
Proof. by vm_compute. Qed.

Lemma fetch_from_crm_fallbacks_witness :
  _fetch_from_crm Sample.crm_empty "user" Sample.jane Sample.empty_world
  = (Ok (PStr "Not found (3f9a2c1d...)"),
     emit (Get (fetch_request Sample.crm_empty
                  {| endpoint := "systemusers"; name_field := "fullname" |}
                  Sample.jane))
       Sample.empty_world)
  ∧ _fetch_from_crm Sample.crm_empty "team" Sample.jane Sample.empty_world
    = (Ok (PStr "Unknown type (team)"), Sample.empty_world).
Proof.
  destruct (fetch_from_crm_fallbacks Sample.crm_empty "user" Sample.jane
              Sample.empty_world) as (_ & _ & Hconfigured).
  destruct (Hconfigured {| endpoint := "systemusers"; name_field := "fullname" |}
              eq_refl) as (_ & Hnot_found & _).
  destruct (fetch_from_crm_fallbacks Sample.crm_empty "team" Sample.jane
              Sample.empty_world) as (_ & Hunknown & _).
  split.
  - apply (Hnot_found None). reflexivity.
  - apply Hunknown. reflexivity.
Defined.

(** C2 as stated fails: an account whose name is the empty string gives a
    result that begins with none of the three prefixes, and the name of the
    contact is returned instead of it. *)
Lemma empty_account_name_is_not_returned :
  (entity_lookup (Sample.crm_customer (PDict [ ("name", PStr "") ]))
     "account" (Some Sample.acme) Sample.empty_world).1 = Ok (PStr "")
  ∧ py_startswith (PStr "") failure_prefixes = Ok false
  ∧ (get_customer_name (Sample.crm_customer (PDict [ ("name", PStr "") ]))
       (Some Sample.acme) Sample.empty_world).1 = Ok (PStr "Bob").
Proof. by vm_compute. Qed.

Lemma get_customer_name_account_then_contact_witness :
  get_customer_name (Sample.crm_customer (PDict [ ("name", PStr "Acme Corp") ]))
    (Some Sample.acme) Sample.empty_world
  = (Ok (PStr "Acme Corp"),
     (entity_lookup (Sample.crm_customer (PDict [ ("name", PStr "Acme Corp") ]))
        "account" (Some Sample.acme) Sample.empty_world).2)
  ∧ get_customer_name Sample.crm_empty (Some Sample.acme) Sample.empty_world
    = entity_lookup Sample.crm_empty "contact" (Some Sample.acme)
        (entity_lookup Sample.crm_empty "account" (Some Sample.acme)
           Sample.empty_world).2.
Proof.
  split.
  - refine (proj1 (get_customer_name_account_then_contact
                     (Sample.crm_customer (PDict [ ("name", PStr "Acme Corp") ]))
                     Sample.acme (PStr "Acme Corp") Sample.empty_world _ _ _)
              "Acme Corp" _ _ _).
    + discriminate.
    + vm_compute. reflexivity.
    + reflexivity.
    + discriminate.
    + reflexivity.
  - refine (proj1 (proj2 (get_customer_name_account_then_contact
                     Sample.crm_empty Sample.acme
                     (PStr "Not found (7b2e4f90...)") Sample.empty_world _ _ _)) _).
    + discriminate.
    + vm_compute. reflexivity.
    + exists "Not found (7b2e4f90...)". split; reflexivity.
Defined.

Lemma entry_valid_iff_younger_than_expiry_witness :
  Sample.fromisoformat "2024-04-24T04:00:00"
  = Some (Naive (Sample.t0 - timedelta_hours CACHE_EXPIRY_HOURS))
  ∧ _is_cache_entry_valid Sample.crm_empty Sample.at_expiry
      (Sample.jane_cached Sample.at_expiry)
    = (Ok false, tick (Sample.jane_cached Sample.at_expiry))
  ∧ _is_cache_entry_valid Sample.crm_empty Sample.before_expiry
      (Sample.jane_cached Sample.before_expiry)
    = (Ok true, tick (Sample.jane_cached Sample.before_expiry))
  ∧ check_cache Sample.crm_empty (cache_key_of "user" Sample.jane)
      (Sample.jane_cached Sample.at_expiry)
    = (Ok None,
       set_cache_data (delete (cache_key_of "user" Sample.jane))
         (tick (Sample.jane_cached Sample.at_expiry)))
  ∧ (∃ name σf,
       _fetch_from_crm Sample.crm_empty "user" Sample.jane
         (set_cache_data (delete (cache_key_of "user" Sample.jane))
            (tick (Sample.jane_cached Sample.at_expiry)))
       = (Ok name, σf)
       ∧ entity_lookup Sample.crm_empty "user" (Some Sample.jane)
           (Sample.jane_cached Sample.at_expiry)
         = (Ok name, stored Sample.crm_empty (cache_key_of "user" Sample.jane)
                       name σf))
  ∧ entity_lookup_value Sample.crm_empty TypeError "user" (PInt 12345)
      (Sample.number_cached Sample.at_expiry)
    = (Raised TypeError,
       set_cache_data (delete "user_12345")
         (tick (Sample.number_cached Sample.at_expiry))).
Proof.
  split; [vm_compute; reflexivity|].
  destruct (entry_valid_iff_younger_than_expiry Sample.crm_empty "user"
              [ ("name", PStr "Jane Doe"); ("timestamp", PStr "2024-04-24T04:00:00") ]
              "2024-04-24T04:00:00"
              (Sample.t0 - timedelta_hours CACHE_EXPIRY_HOURS)
              (Sample.jane_cached Sample.at_expiry))
    as [Hvalid Hexpired]; [reflexivity | vm_compute; reflexivity |].
  destruct (entry_valid_iff_younger_than_expiry Sample.crm_empty "user"
              [ ("name", PStr "Jane Doe");
                ("timestamp", PStr "2024-04-24T04:00:00.000001") ]
              "2024-04-24T04:00:00.000001"
              (Sample.t0 - timedelta_hours CACHE_EXPIRY_HOURS + 1)
              (Sample.jane_cached Sample.before_expiry))
    as [Hvalid' _]; [reflexivity | vm_compute; reflexivity |].
  destruct (entry_valid_iff_younger_than_expiry Sample.crm_empty "user"
              [ ("name", PStr "Jane Doe"); ("timestamp", PStr "2024-04-24T04:00:00") ]
              "2024-04-24T04:00:00"
              (Sample.t0 - timedelta_hours CACHE_EXPIRY_HOURS)
              (Sample.number_cached Sample.at_expiry))
    as [_ Hnumber]; [reflexivity | vm_compute; reflexivity |].
  destruct Hexpired as (Hcheck & Hlookup & _); [vm_compute; discriminate|].
  destruct Hnumber as (_ & _ & Hraise); [vm_compute; discriminate|].
  split; [exact Hvalid|]. split; [exact Hvalid'|].
  split; [apply Hcheck; vm_compute; reflexivity|].
  split; [apply Hlookup; [discriminate | vm_compute; reflexivity]|].
  apply (Hraise TypeError (PInt 12345) TypeError);
    [reflexivity | reflexivity | vm_compute; reflexivity].
Defined.


Lemma reverse_lookup_unsupported_or_empty_witness :
  reverse_lookup (Sample.crm_users Sample.jane_found) "account" (Some "Acme")
    Sample.empty_world
  = (Ok PNone, Sample.empty_world).
Proof.
  apply (proj1 (reverse_lookup_unsupported_or_empty
                  (Sample.crm_users Sample.jane_found) "account" (Some "Acme")
                  Sample.empty_world)); discriminate.
Defined.

Lemma reverse_lookup_aborts_on_failure_witness :
  outcome_of user_config
    (remote (Sample.crm_users HttpError) []
       (search_request (Sample.crm_users HttpError) user_config
          (partial_filter user_config "Jane Doe")))
  = Hit (PStr Sample.other) (PStr "Jane Doering")
  ∧ reverse_lookup (Sample.crm_users HttpError) "user" (Some "Jane Doe")
      Sample.empty_world
    = (Ok PNone,
       emit (Get (search_request (Sample.crm_users HttpError) user_config
                    (exact_filter user_config "Jane Doe")))
         Sample.empty_world)
  ∧ reverse_lookup (Sample.crm_users (HttpResponse 200 None)) "user"
      (Some "Jane Doe") Sample.empty_world
    = (Ok PNone,
       emit (Get (search_request (Sample.crm_users (HttpResponse 200 None))
                    user_config (exact_filter user_config "Jane Doe")))
         Sample.empty_world).
Proof.
  split; [vm_compute; reflexivity|]. split.
  - refine (proj1 (proj1 (reverse_lookup_aborts_on_failure
                            (Sample.crm_users HttpError) "user" "Jane Doe"
                            user_config Sample.empty_world _ _)
                     RequestException _)).
    + discriminate.
    + reflexivity.
    + reflexivity.
  - refine (proj1 (proj1 (reverse_lookup_aborts_on_failure
                            (Sample.crm_users (HttpResponse 200 None)) "user"
                            "Jane Doe" user_config Sample.empty_world _ _)
                     JSONDecodeError _)).
    + discriminate.
    + reflexivity.
    + reflexivity.
Defined.

Lemma reverse_lookup_exact_before_partial_witness :
  (reverse_lookup (Sample.crm_users Sample.jane_found) "user" (Some "Jane Doe")
     Sample.empty_world).1 = Ok (PStr Sample.jane)
  ∧ requests_of
      (trace (reverse_lookup (Sample.crm_users Sample.jane_found) "user"
                (Some "Jane Doe") Sample.empty_world).2)
    = [ search_request (Sample.crm_users Sample.jane_found) user_config
          "fullname eq 'Jane Doe'" ]
  ∧ (reverse_lookup
       (Sample.crm_users (HttpResponse 200 (Some (Sample.results []))))
       "user" (Some "Jane Doe") Sample.empty_world).1 = Ok (PStr Sample.other).
Proof.
  destruct (reverse_lookup_exact_before_partial
              (Sample.crm_users Sample.jane_found) "user" "Jane Doe" user_config
              Sample.empty_world) as (_ & Hexact & _);
    [discriminate | reflexivity |].
  destruct (Hexact (PStr Sample.jane) (PStr "Jane Doe")) as [Hrun Hsent];
    [vm_compute; reflexivity|].
  destruct (reverse_lookup_exact_before_partial
              (Sample.crm_users (HttpResponse 200 (Some (Sample.results []))))
              "user" "Jane Doe" user_config
              Sample.empty_world) as (_ & _ & Hpartial);
    [discriminate | reflexivity |].
  destruct Hpartial as [Hhit _]; [vm_compute; reflexivity|].
  split; [by rewrite Hrun|]. split; [rewrite Hrun; exact Hsent|].
  rewrite (Hhit (PStr Sample.other) (PStr "Jane Doering")); [reflexivity|].
  vm_compute. reflexivity.
Defined.

Lemma reverse_then_forward_hits_cache_witness :
  reverse_lookup (Sample.crm_users Sample.jane_found) "user" (Some "Jane Doe")
    Sample.empty_world
  = (Ok (PStr Sample.jane),
     (reverse_lookup (Sample.crm_users Sample.jane_found) "user"
        (Some "Jane Doe") Sample.empty_world).2)
  ∧ Sample.fromisoformat (Sample.isoformat Sample.t0) = Some (Naive Sample.t0)
  ∧ ∃ display,
      cache_data (reverse_lookup (Sample.crm_users Sample.jane_found) "user"
                    (Some "Jane Doe") Sample.empty_world).2
        !! cache_key_of "user" Sample.jane
      = Some (cache_entry_of (Sample.crm_users Sample.jane_found) display Sample.t0)
      ∧ entity_lookup (Sample.crm_users Sample.jane_found) "user"
          (Some Sample.jane)
          (reverse_lookup (Sample.crm_users Sample.jane_found) "user"
             (Some "Jane Doe") Sample.empty_world).2
        = (Ok display,
           tick (reverse_lookup (Sample.crm_users Sample.jane_found) "user"
                   (Some "Jane Doe") Sample.empty_world).2).
Proof.
  assert (reverse_lookup (Sample.crm_users Sample.jane_found) "user"
            (Some "Jane Doe") Sample.empty_world
          = (Ok (PStr Sample.jane),
             (reverse_lookup (Sample.crm_users Sample.jane_found) "user"
                (Some "Jane Doe") Sample.empty_world).2)) as Hrun
    by (vm_compute; reflexivity).
  assert (Sample.fromisoformat (Sample.isoformat Sample.t0)
          = Some (Naive Sample.t0)) as Hiso by (vm_compute; reflexivity).
  split; [exact Hrun|]. split; [exact Hiso|].
  destruct (reverse_then_forward_hits_cache (Sample.crm_users Sample.jane_found)
              "Jane Doe" Sample.jane Sample.empty_world _ Hrun Hiso)
    as (display & _ & Hentry & Hlookup & _).
  - vm_compute. reflexivity.
  - exists display. split; [exact Hentry | exact Hlookup].
Defined.

(** The round trip of C6 on the sample CRM, computed: the name comes back
    and the only request in the trace is the one of the reverse lookup. *)
Example jane_round_trip :
  (entity_lookup (Sample.crm_users Sample.jane_found) "user" (Some Sample.jane)
     (reverse_lookup (Sample.crm_users Sample.jane_found) "user"
        (Some "Jane Doe") Sample.empty_world).2).1
  = Ok (PStr "Jane Doe")
  ∧ requests_of
      (trace (entity_lookup (Sample.crm_users Sample.jane_found) "user"
                (Some Sample.jane)
                (reverse_lookup (Sample.crm_users Sample.jane_found) "user"
                   (Some "Jane Doe") Sample.empty_world).2).2)
    = [ search_request (Sample.crm_users Sample.jane_found) user_config
          "fullname eq 'Jane Doe'" ].
Proof. by vm_compute. Qed.

Lemma customer_name_falsy_and_no_name_witness :
  get_customer_name (Sample.crm_customer (PDict [ ("name", PNone) ]))
    (Some Sample.acme) Sample.empty_world
  = entity_lookup (Sample.crm_customer (PDict [ ("name", PNone) ])) "contact"
      (Some Sample.acme)
      (entity_lookup (Sample.crm_customer (PDict [ ("name", PNone) ])) "account"
         (Some Sample.acme) Sample.empty_world).2
  ∧ ∃ σ1,
      get_customer_name
        (Sample.crm_customer (PDict [ ("accountid", PStr Sample.acme) ]))
        (Some Sample.acme) Sample.empty_world
      = (Ok (PStr "No name (7b2e4f90...)"), σ1)
      ∧ requests_of (trace σ1)
        = [ fetch_request
              (Sample.crm_customer (PDict [ ("accountid", PStr Sample.acme) ]))
              Sample.account_config Sample.acme ].
Proof.
  split.
  - refine (proj1 (customer_name_falsy_and_no_name
                     (Sample.crm_customer (PDict [ ("name", PNone) ]))
                     Sample.acme Sample.empty_world _) PNone _ _ _).
    + discriminate.
    + vm_compute. reflexivity.
    + reflexivity.
  - refine (proj2 (proj2 (customer_name_falsy_and_no_name
                     (Sample.crm_customer (PDict [ ("accountid", PStr Sample.acme) ]))
                     Sample.acme Sample.empty_world _))
              [ ("accountid", PStr Sample.acme) ] _ _ _).
    + discriminate.
    + reflexivity.
    + reflexivity.
    + reflexivity.
Defined.

(** C4 as stated fails: the CRM answers the exact request with the
    status 500, the partial request is sent all the same, and its match is
    returned. *)
Lemma exact_status_500_still_tries_partial :
  remote (Sample.crm_users (HttpResponse 500 None)) []
    (search_request (Sample.crm_users (HttpResponse 500 None)) user_config
       (exact_filter user_config "Jane Doe"))
  = HttpResponse 500 None
  ∧ (reverse_lookup (Sample.crm_users (HttpResponse 500 None)) "user"
       (Some "Jane Doe") Sample.empty_world).1 = Ok (PStr Sample.other)
  ∧ requests_of
      (trace (reverse_lookup (Sample.crm_users (HttpResponse 500 None)) "user"
                (Some "Jane Doe") Sample.empty_world).2)
    = [ search_request (Sample.crm_users (HttpResponse 500 None)) user_config
          "fullname eq 'Jane Doe'";
        search_request (Sample.crm_users (HttpResponse 500 None)) user_config
          "contains(fullname, 'Jane Doe')" ].
Proof. by vm_compute. Qed.


(** ** More on the cache *)

Section CacheProperties.

Variable E : environment.

(** What the steps of a lookup leave alone *)

Lemma valid_frame cache_entry σ r σ' :
  _is_cache_entry_valid E cache_entry σ = (r, σ') →
  cache_data σ' = cache_data σ ∧ trace σ' = trace σ.
Proof.
  unfold _is_cache_entry_valid.
  destruct (truthy cache_entry); [|by intros [= <- <-]].
  unfold_M. destruct (py_in "timestamp" cache_entry) as [[]|]; simpl;
    try by intros [= <- <-].
  destruct (py_getitem cache_entry "timestamp") as [ts|]; simpl;
    [|by intros [= <- <-]].
  destruct (datetime_fromisoformat E ts) as [saved|]; simpl;
    [|by intros [= <- <-]].
  unfold datetime_now.
  destruct (datetime_gt _ _); by intros [= <- <-].
Qed.

Lemma fetch_frame entity_type entity_id σ r σ' :
  _fetch_from_crm E entity_type entity_id σ = (r, σ') →
  cache_data σ' = cache_data σ ∧ ticks σ' = ticks σ
  ∧ file_content (cache_data σ) (trace σ') = file_content (cache_data σ) (trace σ)
  ∧ ∀ file, file_content file (trace σ') = file_content file (trace σ).
Proof.
  unfold _fetch_from_crm.
  destruct (assoc entity_type fetch_entity_configs) as [config|];
    [|by intros [= <- <-]].
  unfold_M. unfold requests_get.
  assert (∀ file r0, file_content file (trace (emit (Get r0) σ))
                     = file_content file (trace σ)) as Hfile.
  { intros file r0. unfold file_content, emit. simpl.
    rewrite omap_app. simpl. by rewrite app_nil_r. }
  destruct (remote E (trace σ) (fetch_request E config entity_id))
    as [|code body]; [intros [= <- <-]; by repeat split|].
  destruct (code =? 200).
  - destruct body as [[]|]; simpl; intros [= <- <-]; by repeat split.
  - destruct (code =? 404); intros [= <- <-]; by repeat split.
Qed.

Lemma file_content_stored file cache_key name σ :
  file_content file (trace (stored E cache_key name σ))
  = cache_data (stored E cache_key name σ).
Proof.
  unfold file_content, stored. simpl. rewrite omap_app. simpl.
  by rewrite last_snoc.
Qed.

Lemma file_content_emit_get file r σ :
  file_content file (trace (emit (Get r) σ)) = file_content file (trace σ).
Proof.
  unfold file_content, emit. simpl. rewrite omap_app. simpl.
  by rewrite app_nil_r.
Qed.

(** A lookup, unfolded: the five ways it can go *)
Lemma entity_lookup_cases entity_type entity_id σ r σ' :
  entity_id ≠ "" →
  entity_lookup E entity_type (Some entity_id) σ = (r, σ') →
  let cache_key := cache_key_of entity_type entity_id in
  (cache_data σ' = cache_data σ ∧ trace σ' = trace σ
   ∧ ((∃ cache_entry name, cache_data σ !! cache_key = Some cache_entry
                           ∧ py_getitem cache_entry "name" = Ok name
                           ∧ r = Ok name)
      ∨ ∃ cache_entry e, cache_data σ !! cache_key = Some cache_entry
                         ∧ ¬ entry_shape cache_entry ∧ r = Raised e))
  ∨ ∃ σ0 name σf,
      cache_data σ0 = delete cache_key (cache_data σ) ∧ trace σ0 = trace σ
      ∧ _fetch_from_crm E entity_type entity_id σ0 = (Ok name, σf)
      ∧ r = Ok name ∧ σ' = stored E cache_key name σf.
Proof.
  intros Hid Hrun cache_key. unfold entity_lookup, check_cache in Hrun.
  apply String.eqb_neq in Hid. rewrite Hid in Hrun.
  fold cache_key in Hrun. unfold_M.
  destruct (cache_data σ !! cache_key) as [cache_entry|] eqn:Hc.
  - destruct (_is_cache_entry_valid E cache_entry σ) as [[[]|e] σv] eqn:Hv;
      destruct (valid_frame _ _ _ _ Hv) as [Hcd Htr].
    + destruct (py_getitem cache_entry "name") as [name|e] eqn:Hn.
      * injection Hrun as <- <-. left. repeat split; [done..|].
        left. by exists cache_entry, name.
      * injection Hrun as <- <-. left. repeat split; [done..|].
        right. exists cache_entry, e. split; [done|]. split; [|done].
        intros (n & ts & ->). simpl in Hn. discriminate.
    + right.
      destruct (fetch_and_store_total E entity_type entity_id
                  (set_cache_data (delete cache_key) σv)) as (name & σf & Hf & Hfs).
      fold cache_key in Hfs. rewrite Hfs in Hrun. injection Hrun as <- <-.
      exists (set_cache_data (delete cache_key) σv), name, σf.
      simpl. rewrite Hcd. by repeat split.
    + injection Hrun as <- <-. left. repeat split; [done..|].
      right. exists cache_entry, e. split; [done|]. split; [|done].
      intros (n & ts & ->).
      unfold _is_cache_entry_valid in Hv. simpl in Hv. unfold_M.
      simpl in Hv.
      destruct (fromisoformat E ts) as [[]|]; simpl in Hv; discriminate.
  - right.
    destruct (fetch_and_store_total E entity_type entity_id σ)
      as (name & σf & Hf & Hfs).
    fold cache_key in Hfs. rewrite Hfs in Hrun. injection Hrun as <- <-.
    exists σ, name, σf. repeat split; try done.
    symmetry. by apply delete_id.
Qed.

Lemma get_customer_name_steps customer_id σ r σ' :
  customer_id ≠ "" →
  get_customer_name E (Some customer_id) σ = (r, σ') →
  ∃ r1 σ1,
    entity_lookup E "account" (Some customer_id) σ = (r1, σ1)
    ∧ (σ' = σ1 ∨ ∃ r2, entity_lookup E "contact" (Some customer_id) σ1 = (r2, σ')).
Proof.
  intros Hid Hrun. unfold get_customer_name in Hrun.
  apply String.eqb_neq in Hid. rewrite Hid in Hrun.
  destruct (entity_lookup E "account" (Some customer_id) σ) as [r1 σ1] eqn:Ha.
  exists r1, σ1. split; [done|].
  unfold_M. rewrite Ha in Hrun.
  destruct r1 as [name|e]; [|left; by injection Hrun].
  destruct (if truthy name
            then result_map negb (py_startswith name failure_prefixes)
            else Ok false) as [[]|e].
  - left. by injection Hrun.
  - right. by exists r.
  - left. by injection Hrun.
Qed.

Lemma search_loop_cases entity_type config filters σ r σ' :
  search_loop E entity_type config filters σ = (r, σ') →
  ∃ v, r = Ok v
    ∧ (length (requests_of (trace σ'))
       ≤ length (requests_of (trace σ)) + length filters)%nat
    ∧ ((v = PNone ∧ cache_data σ' = cache_data σ ∧ ticks σ' = ticks σ
        ∧ ∀ file, file_content file (trace σ') = file_content file (trace σ))
       ∨ ∃ entity_name σ0,
           truthy v = true ∧ cache_data σ0 = cache_data σ
           ∧ σ' = stored E (cache_key_of entity_type (py_str E v)) entity_name σ0).
Proof.
  revert σ r σ'.
  induction filters as [|[filter_type filter_expr] rest IH]; intros σ r σ'.
  - intros [= <- <-]. exists PNone. split; [done|]. split; [simpl; lia|].
    left. by repeat split.
  - simpl. rewrite search_attempt_run.
    assert (requests_of (trace (emit (Get (search_request E config filter_expr)) σ))
            = requests_of (trace σ) ++ [search_request E config filter_expr])
      as Hreq.
    { unfold requests_of, emit. simpl. by rewrite omap_app. }
    destruct (outcome_of config _) as [entity_id entity_name| |e] eqn:Ho.
    + apply outcome_hit_inv in Ho as (data & _ & Hm).
      apply first_match_truthy in Hm.
      intros [= <- <-]. exists entity_id. split; [done|]. split.
      * unfold requests_of, stored, emit. simpl.
        rewrite !omap_app, !length_app. simpl. lia.
      * right. by exists entity_name, (emit (Get (search_request E config filter_expr)) σ).
    + intros Hrest. destruct (IH _ _ _ Hrest) as (v & -> & Hlen & Hcases).
      exists v. split; [done|]. split.
      * rewrite Hreq, length_app in Hlen. simpl in Hlen |- *. lia.
      * destruct Hcases as [(-> & Hcd & Ht & Hfile) | (n & σ0 & Hv & Hcd & ->)].
        -- left. repeat split; try done.
           intros file. rewrite Hfile. apply file_content_emit_get.
        -- right. by exists n, σ0.
    + intros [= <- <-]. exists PNone. split; [done|]. split.
      * rewrite Hreq, length_app. simpl. lia.
      * left. repeat split; try done. intros file. apply file_content_emit_get.
Qed.

Lemma reverse_lookup_cases entity_type search_name σ r σ' :
  reverse_lookup E entity_type search_name σ = (r, σ') →
  ∃ v, r = Ok v
    ∧ (length (requests_of (trace σ')) ≤ length (requests_of (trace σ)) + 2)%nat
    ∧ ((v = PNone ∧ cache_data σ' = cache_data σ ∧ ticks σ' = ticks σ
        ∧ ∀ file, file_content file (trace σ') = file_content file (trace σ))
       ∨ ∃ entity_name σ0,
           truthy v = true ∧ cache_data σ0 = cache_data σ
           ∧ σ' = stored E (cache_key_of entity_type (py_str E v)) entity_name σ0).
Proof.
  unfold reverse_lookup.
  assert (∀ σ1, (Ok PNone, σ) = (r, σ1) → σ1 = σ' →
    ∃ v, r = Ok v
      ∧ (length (requests_of (trace σ')) ≤ length (requests_of (trace σ)) + 2)%nat
      ∧ ((v = PNone ∧ cache_data σ' = cache_data σ ∧ ticks σ' = ticks σ
          ∧ ∀ file, file_content file (trace σ') = file_content file (trace σ))
         ∨ ∃ entity_name σ0,
             truthy v = true ∧ cache_data σ0 = cache_data σ
             ∧ σ' = stored E (cache_key_of entity_type (py_str E v)) entity_name σ0))
    as Hnone.
  { intros σ1 [= <- <-] <-. exists PNone. split; [done|]. split; [lia|].
    left. by repeat split. }
  destruct search_name as [name|]; [|intros H; by eapply Hnone].
  destruct (String.eqb name ""); [intros H; by eapply Hnone|].
  destruct (assoc entity_type reverse_entity_configs) as [config|];
    [|intros H; by eapply Hnone].
  intros Hrun. by apply search_loop_cases in Hrun.
Qed.

(** *** What a lookup touches *)

(** X1. Whatever [entity_lookup] does (return a cached name, fetch, raise),
    it leaves every entry of the table other than the one under its own
    key as it was. *)
Theorem entity_lookup_touches_only_its_key
    (entity_type entity_id other_key : string) (σ σ' : world) (r : result pyval) :
  entity_id ≠ "" →
  entity_lookup E entity_type (Some entity_id) σ = (r, σ') →
  other_key ≠ cache_key_of entity_type entity_id →
  cache_data σ' !! other_key = cache_data σ !! other_key.
Proof.
  intros Hid Hrun Hother.
  destruct (entity_lookup_cases _ _ _ _ _ Hid Hrun)
    as [(-> & _) | (σ0 & name & σf & Hcd & _ & Hf & _ & ->)]; [done|].
  destruct (fetch_frame _ _ _ _ _ Hf) as (Hcdf & _).
  unfold stored. simpl. rewrite lookup_insert_ne by done.
  rewrite Hcdf, Hcd. by rewrite lookup_delete_ne.
Qed.

(** The check of the cache sends and saves nothing, and changes the table
    only when it hands out no name. *)
Lemma check_cache_frame cache_key σ r σ1 :
  check_cache E cache_key σ = (r, σ1) →
  trace σ1 = trace σ ∧ (r = Ok None ∨ cache_data σ1 = cache_data σ).
Proof.
  unfold check_cache. unfold_M.
  destruct (cache_data σ !! cache_key) as [cache_entry|];
    [|intros [= <- <-]; split; [done|by left]].
  destruct (_is_cache_entry_valid E cache_entry σ) as [[[]|e] σv] eqn:Hv;
    destruct (valid_frame _ _ _ _ Hv) as [Hcd Htr].
  - destruct (py_getitem cache_entry "name");
      intros [= <- <-]; split; [done|by right|done|by right].
  - intros [= <- <-]. split; [done|by left].
  - intros [= <- <-]. split; [done|by right].
Qed.

(** On an identifier that can be sliced the fetch returns a name. *)
Lemma fetch_value_total slice_error entity_type entity_id prefix σ :
  py_slice8 slice_error entity_id = Ok prefix →
  ∃ name σf,
    _fetch_from_crm_value E slice_error entity_type entity_id σ = (Ok name, σf).
Proof.
  intros Hs. unfold _fetch_from_crm_value.
  destruct (assoc entity_type fetch_entity_configs) as [config|];
    [|by eexists _, _].
  unfold_M. unfold requests_get, fallback_of. rewrite Hs.
  destruct (remote E (trace σ) (fetch_request E config (py_str E entity_id)))
    as [|code body]; [by eexists _, _|].
  destruct (code =? 200); [|destruct (code =? 404); by eexists _, _].
  destruct body as [[]|]; simpl; by eexists _, _.
Qed.

Lemma entity_lookup_value_in_sync file slice_error entity_type entity_id σ r σ' :
  in_sync file σ →
  truthy entity_id = false ∨ (∃ prefix, py_slice8 slice_error entity_id = Ok prefix) →
  entity_lookup_value E slice_error entity_type entity_id σ = (r, σ') →
  in_sync file σ'.
Proof.
  intros Hsync Hdom. unfold entity_lookup_value.
  destruct (truthy entity_id) eqn:Ht; [|by intros [= <- <-]].
  destruct Hdom as [|[prefix Hs]]; [done|]. cbn [negb].
  unfold mbind, M_bind.
  destruct (check_cache E (cache_key_of entity_type (py_str E entity_id)) σ)
    as [rc σ1] eqn:Hc.
  destruct (check_cache_frame _ _ _ _ Hc) as [Htr Hcases].
  assert (in_sync file σ1 ∨ rc = Ok None) as [Hsync1 | ->].
  { destruct Hcases as [|Hcd]; [by right|].
    left. unfold in_sync in *. by rewrite Htr, Hcd. }
  - destruct rc as [[name|]|e]; [by intros [= <- <-]| |by intros [= <- <-]].
    unfold lift. rewrite Hs.
    destruct (fetch_value_total slice_error entity_type entity_id prefix σ1 Hs)
      as (name & σf & ->).
    intros [= <- <-]. exact (file_content_stored file _ name σf).
  - unfold lift. rewrite Hs.
    destruct (fetch_value_total slice_error entity_type entity_id prefix σ1 Hs)
      as (name & σf & ->).
    intros [= <- <-]. exact (file_content_stored file _ name σf).
Qed.

(** X2. [entity_lookup], [get_customer_name] and [reverse_lookup] write
    through: when the cache file holds the table before a call with an
    identifier that is absent, empty or a string, or any value that is
    falsy or can be sliced, it holds the table after it, whether the call
    returns or raises. A truthy identifier that cannot be sliced is the
    other side: when its entry is found invalid, [entity_lookup] deletes
    it and line 96 raises before anything is saved, and the file no
    longer holds the table. *)
Theorem cache_operations_keep_file_in_sync
    (file : gmap string pyval) (entity_type : string)
    (entity_id search_name : option string) (σ σ' : world) (r : result pyval) :
  in_sync file σ →
  (entity_lookup E entity_type entity_id σ = (r, σ') → in_sync file σ')
  ∧ (get_customer_name E entity_id σ = (r, σ') → in_sync file σ')
  ∧ (reverse_lookup E entity_type search_name σ = (r, σ') → in_sync file σ')
  ∧ (∀ slice_error v,
       truthy v = false ∨ (∃ prefix, py_slice8 slice_error v = Ok prefix) →
       (entity_lookup_value E slice_error entity_type v σ = (r, σ') →
        in_sync file σ')
       ∧ (get_customer_name_value E slice_error v σ = (r, σ') →
          in_sync file σ'))
  ∧ (∀ slice_error v e cache_entry σ1,
       truthy v = true →
       py_slice8 slice_error v = Raised e →
       cache_data σ !! cache_key_of entity_type (py_str E v) = Some cache_entry →
       _is_cache_entry_valid E cache_entry σ = (Ok false, σ1) →
       entity_lookup_value E slice_error entity_type v σ = (r, σ') →
       r = Raised e ∧ ¬ in_sync file σ').
Proof.
  intros Hsync.
  assert (∀ ty id σ0 r0 σ1, in_sync file σ0 →
            entity_lookup E ty id σ0 = (r0, σ1) → in_sync file σ1) as Hlookup.
  { intros ty [id|] σ0 r0 σ1 H0 Hrun; [|by injection Hrun as <- <-].
    destruct (String.eqb_spec id "") as [->|Hid]; [by injection Hrun as <- <-|].
    destruct (entity_lookup_cases _ _ _ _ _ Hid Hrun)
      as [(Hcd & Htr & _) | (σ2 & name & σf & _ & _ & _ & _ & ->)].
    - unfold in_sync in *. by rewrite Htr, Hcd.
    - apply file_content_stored. }
  split; [by apply Hlookup|]. split; [|split; [|split]].
  - intros Hrun. destruct entity_id as [id|]; [|by injection Hrun as <- <-].
    destruct (String.eqb_spec id "") as [->|Hid]; [by injection Hrun as <- <-|].
    destruct (get_customer_name_steps _ _ _ _ Hid Hrun)
      as (r1 & σ1 & Ha & [-> | (r2 & Hc)]); eauto.
  - intros Hrun.
    destruct (reverse_lookup_cases _ _ _ _ _ Hrun)
      as (v & _ & _ & [(_ & Hcd & _ & Hfile) | (n & σ0 & _ & _ & ->)]).
    + unfold in_sync in *. by rewrite Hfile, Hcd.
    + apply file_content_stored.
  - intros slice_error v Hdom. split.
    + by apply entity_lookup_value_in_sync.
    + unfold get_customer_name_value.
      destruct (negb (truthy v)); [by intros [= <- <-]|].
      unfold mbind, M_bind.
      destruct (entity_lookup_value E slice_error "account" v σ)
        as [[name|e0] σ1] eqn:Ha;
        pose proof (entity_lookup_value_in_sync _ _ _ _ _ _ _ Hsync Hdom Ha)
        as Hsync1; [|by intros [= <- <-]].
      unfold lift.
      destruct (if truthy name
                then result_map negb (py_startswith name failure_prefixes)
                else Ok false) as [[]|e0]; [by intros [= <- <-]| |by intros [= <- <-]].
      by apply entity_lookup_value_in_sync.
  - intros slice_error v e cache_entry σ1 Ht Hs Hc Hv.
    unfold entity_lookup_value, check_cache. rewrite Ht. cbn [negb].
    unfold_M. rewrite Hc, Hv, Hs. intros [= <- <-]. split; [done|].
    destruct (valid_frame _ _ _ _ Hv) as [Hcd Htr].
    unfold in_sync in *. simpl. rewrite Htr, Hsync, Hcd. intros Heq.
    assert (cache_data σ !! cache_key_of entity_type (py_str E v) = None) as Hnone.
    { rewrite Heq. apply lookup_delete_eq. }
    by rewrite Hc in Hnone.
Qed.

(** X3. A table in which every entry has the shape the cache writes (a
    name and a timestamp string) still has it after [entity_lookup],
    [get_customer_name] and [reverse_lookup]. *)
Theorem cache_operations_keep_entries_well_formed
    (entity_type : string) (entity_id search_name : option string)
    (σ σ' : world) (r : result pyval) :
  table_ok σ →
  (entity_lookup E entity_type entity_id σ = (r, σ') → table_ok σ')
  ∧ (get_customer_name E entity_id σ = (r, σ') → table_ok σ')
  ∧ (reverse_lookup E entity_type search_name σ = (r, σ') → table_ok σ').
Proof.
  intros Hok.
  assert (∀ key name σ0 σ1, (∀ k e, cache_data σ0 !! k = Some e →
                                      k ≠ key → entry_shape e) →
            cache_data σ1 = cache_data σ0 →
            table_ok (stored E key name σ1)) as Hstored.
  { intros key name σ0 σ1 H0 Hcd k e. unfold stored. simpl.
    destruct (decide (key = k)) as [->|Hne].
    - rewrite lookup_insert_eq. intros [= <-]. by eexists _, _.
    - rewrite lookup_insert_ne by done. rewrite Hcd. eauto. }
  assert (∀ ty id σ0 r0 σ1, table_ok σ0 →
            entity_lookup E ty id σ0 = (r0, σ1) → table_ok σ1) as Hlookup.
  { intros ty [id|] σ0 r0 σ1 H0 Hrun; [|by injection Hrun as <- <-].
    destruct (String.eqb_spec id "") as [->|Hid]; [by injection Hrun as <- <-|].
    destruct (entity_lookup_cases _ _ _ _ _ Hid Hrun)
      as [(Hcd & _) | (σ2 & name & σf & Hcd & _ & Hf & _ & ->)].
    - unfold table_ok. by rewrite Hcd.
    - destruct (fetch_frame _ _ _ _ _ Hf) as (Hcdf & _).
      apply (Hstored _ _ σ2); [|done].
      intros k e. rewrite Hcd. intros He Hne.
      rewrite lookup_delete_ne in He by done. eauto. }
  split; [by apply Hlookup|]. split.
  - intros Hrun. destruct entity_id as [id|]; [|by injection Hrun as <- <-].
    destruct (String.eqb_spec id "") as [->|Hid]; [by injection Hrun as <- <-|].
    destruct (get_customer_name_steps _ _ _ _ Hid Hrun)
      as (r1 & σ1 & Ha & [-> | (r2 & Hc)]); eauto.
  - intros Hrun.
    destruct (reverse_lookup_cases _ _ _ _ _ Hrun)
      as (v & _ & _ & [(_ & Hcd & _) | (n & σ0 & _ & Hcd & ->)]).
    + unfold table_ok. by rewrite Hcd.
    + apply (Hstored _ _ σ); [|done]. intros k e He _. eauto.
Qed.

(** X4. On a table in which every entry has the shape the cache writes,
    [entity_lookup] never raises. *)
Theorem entity_lookup_never_raises_on_own_table
    (entity_type : string) (entity_id : option string) (σ : world) :
  table_ok σ →
  ∃ name σ', entity_lookup E entity_type entity_id σ = (Ok name, σ').
Proof.
  intros Hok. destruct entity_id as [id|]; [|by eexists _, _].
  destruct (String.eqb_spec id "") as [->|Hid]; [by eexists _, _|].
  destruct (entity_lookup E entity_type (Some id) σ) as [r σ'] eqn:Hrun.
  destruct (entity_lookup_cases _ _ _ _ _ Hid Hrun)
    as [(_ & _ & [(c & n & _ & _ & ->) | (c & e & Hc & Hbad & _)])
       | (σ0 & name & σf & _ & _ & _ & -> & _)]; [by eexists _, _| |by eexists _, _].
  destruct Hbad. eauto.
Qed.

(** X5. What a lookup fetched is served from the cache afterwards, a
    fallback string like any name: after a lookup that missed the cache, a
    second lookup of the same entity returns the same value, reads the
    clock once and sends no request, provided the written timestamp reads
    back and less than 176 hours have passed. *)
Theorem lookup_after_miss_is_cached
    (entity_type entity_id : string) (name : pyval) (σ σ1 : world) :
  entity_id ≠ "" →
  cache_data σ !! cache_key_of entity_type entity_id = None →
  entity_lookup E entity_type (Some entity_id) σ = (Ok name, σ1) →
  fromisoformat E (isoformat E (clock E (ticks σ)))
  = Some (Naive (clock E (ticks σ))) →
  clock E (ticks σ1) - clock E (ticks σ) < timedelta_hours CACHE_EXPIRY_HOURS →
  entity_lookup E entity_type (Some entity_id) σ1 = (Ok name, tick σ1).
Proof.
  intros Hid Hmiss Hrun Hiso Hsoon.
  rewrite entity_lookup_miss in Hrun by done.
  destruct (fetch_and_store_total E entity_type entity_id σ)
    as (name' & σf & Hf & Hfs).
  rewrite Hfs in Hrun. injection Hrun as -> <-.
  destruct (fetch_frame _ _ _ _ _ Hf) as (_ & Ht & _).
  simpl in Hsoon.
  eapply entity_lookup_hit; [done| | |].
  - unfold stored. simpl. apply lookup_insert_eq.
  - unfold cache_entry_of. rewrite Ht.
    rewrite (valid_naive_timestamp E
               [("name", name);
                ("timestamp", PStr (isoformat E (clock E (ticks σ))))]
               _ _ _ eq_refl Hiso).
    simpl. by rewrite bool_decide_true by done.
  - done.
Qed.

(** X6. An entry that is still valid is returned as it is: the table and
    the trace are unchanged (the timestamp of the entry is not renewed) and
    only the clock is read. When such an entry has no name, the lookup
    raises [KeyError] instead. *)
Theorem valid_entry_is_served
    (entity_type entity_id s : string) (d : list (string * pyval)) (t : Z)
    (σ : world) :
  entity_id ≠ "" →
  cache_data σ !! cache_key_of entity_type entity_id = Some (PDict d) →
  dict_lookup "timestamp" d = Some (PStr s) →
  fromisoformat E s = Some (Naive t) →
  clock E (ticks σ) - t < timedelta_hours CACHE_EXPIRY_HOURS →
  entity_lookup E entity_type (Some entity_id) σ
  = (match dict_lookup "name" d with
     | Some name => Ok name
     | None => Raised KeyError
     end, tick σ).
Proof.
  intros Hid Hc Hts Hiso Hfresh.
  pose proof (valid_naive_timestamp E d s t σ Hts Hiso) as Hv.
  rewrite bool_decide_true in Hv by done.
  unfold entity_lookup, check_cache.
  apply String.eqb_neq in Hid. rewrite Hid.
  unfold_M. rewrite Hc, Hv. simpl.
  by destruct (dict_lookup "name" d).
Qed.

(** X7. [reverse_lookup] sends at most two requests. When it returns
    [None] the table is as it was; when it returns an identifier, the only
    entry that can differ is the one of that identifier. *)
Theorem reverse_lookup_footprint
    (entity_type : string) (search_name : option string) (σ σ' : world)
    (v : pyval) :
  reverse_lookup E entity_type search_name σ = (Ok v, σ') →
  (length (requests_of (trace σ')) ≤ length (requests_of (trace σ)) + 2)%nat
  ∧ (v = PNone → cache_data σ' = cache_data σ)
  ∧ ∀ other_key, other_key ≠ cache_key_of entity_type (py_str E v) →
      cache_data σ' !! other_key = cache_data σ !! other_key.
Proof.
  intros Hrun.
  destruct (reverse_lookup_cases _ _ _ _ _ Hrun)
    as (v' & [= <-] & Hlen & Hcases).
  split; [done|].
  destruct Hcases as [(-> & Hcd & _) | (n & σ0 & Hv & Hcd & ->)].
  - split; [done|]. intros k _. by rewrite Hcd.
  - split; [by intros ->|].
    intros k Hk. unfold stored. simpl.
    rewrite lookup_insert_ne by done. by rewrite Hcd.
Qed.

(** X16. An entry whose timestamp carries a UTC offset is never valid:
    the clock is read, the comparison of the aware timestamp with the
    naive expiry time raises, and the [except] turns that into [False]. *)
Theorem aware_timestamp_is_never_valid
    (d : list (string * pyval)) (s : string) (t : Z) (σ : world) :
  dict_lookup "timestamp" d = Some (PStr s) →
  fromisoformat E s = Some (Aware t) →
  _is_cache_entry_valid E (PDict d) σ = (Ok false, tick σ).
Proof.
  intros Hts Hiso. unfold _is_cache_entry_valid.
  destruct d as [|kv d]; [done|]. remember (kv :: d) as d' eqn:Hd'.
  assert (truthy (PDict d') = true) as -> by by rewrite Hd'.
  unfold_M. unfold py_in, py_getitem, datetime_fromisoformat, datetime_now.
  by rewrite Hts, Hiso.
Qed.

(** X17. Two lookups of configured entity types use the same key of the
    table only when they are lookups of the same type and the same
    identifier. *)
Theorem configured_keys_do_not_collide
    (entity_type entity_type' entity_id entity_id' : string) :
  is_Some (assoc entity_type fetch_entity_configs) →
  is_Some (assoc entity_type' fetch_entity_configs) →
  cache_key_of entity_type entity_id = cache_key_of entity_type' entity_id' →
  entity_type = entity_type' ∧ entity_id = entity_id'.
Proof.
  assert (∀ ty, is_Some (assoc ty fetch_entity_configs) →
            ty ∈ [ "account"; "contact"; "user"; "division"; "service" ]) as Hty.
  { intros ty [config Hc]. revert Hc. unfold fetch_entity_configs. simpl.
    repeat match goal with
    | |- context [String.eqb ty ?k] =>
      destruct (String.eqb_spec ty k) as [->|_]; [intros _; set_solver|]
    end. done. }
  intros H1%Hty H2%Hty.
  repeat (apply elem_of_cons in H1 as [->|H1]);
    [..|by apply elem_of_nil in H1];
    repeat (apply elem_of_cons in H2 as [->|H2]);
    try (by apply elem_of_nil in H2);
    cbv [cache_key_of String.append]; intros [= ?]; by subst.
Qed.

End CacheProperties.

(** ** The client *)

Lemma dict_lookup_remove k k' d :
  dict_lookup k (dict_remove k' d)
  = if String.eqb k k' then None else dict_lookup k d.
Proof.
  induction d as [|[k0 v] d IH]; simpl; [by destruct (String.eqb k k')|].
  destruct (String.eqb_spec k' k0) as [->|Hne]; simpl.
  - rewrite IH. by destruct (String.eqb k k0).
  - rewrite IH. destruct (String.eqb_spec k k') as [->|]; [|done].
    by rewrite (proj2 (String.eqb_neq _ _) Hne).
Qed.

Lemma dict_lookup_set k k' v d :
  dict_lookup k (dict_set k' v d)
  = if String.eqb k k' then Some v else dict_lookup k d.
Proof.
  induction d as [|[k0 v0] d IH]; simpl.
  - by destruct (String.eqb k k').
  - destruct (String.eqb_spec k' k0) as [->|Hne]; simpl.
    + by destruct (String.eqb k k0).
    + rewrite IH. destruct (String.eqb_spec k k') as [->|]; [|done].
      by rewrite (proj2 (String.eqb_neq _ _) Hne).
Qed.

Lemma dict_lookup_remove_all k fields d :
  dict_lookup k (foldl (λ d field, dict_remove field d) d fields)
  = if decide (k ∈ fields) then None else dict_lookup k d.
Proof.
  revert d. induction fields as [|f fields IH]; intros d; simpl.
  - destruct (decide (k ∈ [])) as [H|]; [by apply elem_of_nil in H|done].
  - rewrite IH, dict_lookup_remove.
    destruct (decide (k ∈ fields)) as [Hin|Hout].
    + rewrite decide_True; [done|]. by apply elem_of_cons; right.
    + destruct (String.eqb_spec k f) as [->|Hne].
      * rewrite decide_True; [done|]. by apply elem_of_cons; left.
      * rewrite decide_False; [done|]. by intros [?|?]%elem_of_cons.
Qed.

(** X8. [_clean_opportunity_data] on a dictionary removes the six raw
    fields and nothing else: afterwards none of them is a key, and every
    other key has the value it had. *)
Theorem clean_removes_exactly_the_raw_fields (d : list (string * pyval)) :
  ∃ d', _clean_opportunity_data (PDict d) = Ok (PDict d')
    ∧ ∀ k, dict_lookup k d'
           = if decide (k ∈ fields_to_remove) then None else dict_lookup k d.
Proof.
  eexists. split; [done|]. intros k. apply dict_lookup_remove_all.
Qed.

(** X9. [get_crm_config] returns the four settings when each variable is
    set and not empty. When one is missing or empty it raises
    [AttributeError], raised by the call of [upper] on the list of missing
    names, and not the [ValueError] of its [raise] statement. *)
Theorem get_crm_config_all_or_attribute_error (getenv : string → option string) :
  let set name := ∃ s, getenv name = Some s ∧ s ≠ "" in
  (set "CLIENT_ID" ∧ set "CLIENT_SECRET" ∧ set "TENANT_ID" ∧ set "RESOURCE" →
     ∃ a b c d,
       getenv "CLIENT_ID" = Some a ∧ getenv "CLIENT_SECRET" = Some b
       ∧ getenv "TENANT_ID" = Some c ∧ getenv "RESOURCE" = Some d
       ∧ get_crm_config getenv
         = Ok (PDict [ ("client_id", PStr a); ("client_secret", PStr b);
                       ("tenant_id", PStr c); ("resource", PStr d) ]))
  ∧ (¬ (set "CLIENT_ID" ∧ set "CLIENT_SECRET" ∧ set "TENANT_ID" ∧ set "RESOURCE") →
       get_crm_config getenv = Raised AttributeError).
Proof.
  intros set.
  assert (∀ name, set name ∨ truthy (match getenv name with
                                      | Some s => PStr s | None => PNone end)
                             = false) as Hdec.
  { intros name. unfold set. destruct (getenv name) as [s|]; [|by right].
    destruct (String.eqb_spec s "") as [->|Hne]; [by right|].
    left. by exists s. }
  assert (∀ name, set name → ∃ s, getenv name = Some s
            ∧ truthy (match getenv name with
                      | Some s => PStr s | None => PNone end) = true) as Hset.
  { intros name (s & Hs & Hne). exists s. split; [done|]. rewrite Hs. simpl.
    by rewrite (proj2 (String.eqb_neq _ _) Hne). }
  split.
  - intros (H1 & H2 & H3 & H4).
    destruct (Hset _ H1) as (a & Ha & Ta), (Hset _ H2) as (b & Hb & Tb),
             (Hset _ H3) as (c & Hc & Tc), (Hset _ H4) as (d & Hd & Td).
    exists a, b, c, d. repeat split; try done.
    unfold get_crm_config. rewrite Ha, Hb, Hc, Hd in *.
    simpl in Ta, Tb, Tc, Td |- *. by rewrite Ta, Tb, Tc, Td.
  - intros Hnot. unfold get_crm_config.
    destruct (Hdec "CLIENT_ID") as [H1|H1], (Hdec "CLIENT_SECRET") as [H2|H2],
             (Hdec "TENANT_ID") as [H3|H3], (Hdec "RESOURCE") as [H4|H4];
      try (by destruct Hnot);
      cbn [List.filter map fst snd];
      repeat match goal with
      | H : set _ |- _ => apply Hset in H as (? & _ & H)
      end;
      repeat match goal with
      | H : truthy _ = _ |- _ => rewrite H; clear H
      end; done.
Qed.

Section ClientProperties.

Variable E : environment.
Variable response_text : list event → request → string.
Variable dict_slice_error : exn.

(** On identifiers that are strings or [None], the lookups of the client
    are the lookups of the cache. *)
Lemma fetch_value_str entity_type entity_id σ :
  _fetch_from_crm_value E dict_slice_error entity_type (PStr entity_id) σ
  = _fetch_from_crm E entity_type entity_id σ.
Proof.
  unfold _fetch_from_crm_value, _fetch_from_crm.
  destruct (assoc entity_type fetch_entity_configs) as [config|]; [|done].
  unfold_M. unfold requests_get, fallback_of. simpl.
  destruct (remote E (trace σ) (fetch_request E config entity_id))
    as [|code body]; [done|].
  destruct (code =? 200); [|by destruct (code =? 404)].
  destruct body as [[]|]; done.
Qed.

Lemma entity_lookup_value_str entity_type entity_id σ :
  entity_lookup_value E dict_slice_error entity_type (PStr entity_id) σ
  = entity_lookup E entity_type (Some entity_id) σ.
Proof.
  unfold entity_lookup_value, entity_lookup, fetch_and_store. simpl.
  destruct (String.eqb entity_id ""); [done|]. simpl.
  unfold mbind, M_bind.
  destruct (check_cache E (cache_key_of entity_type entity_id) σ)
    as [[[name|]|e] σ1]; [done| |done].
  unfold lift. by rewrite fetch_value_str.
Qed.

Lemma entity_lookup_value_falsy entity_type entity_id σ :
  truthy entity_id = false →
  entity_lookup_value E dict_slice_error entity_type entity_id σ
  = (Ok (PStr "N/A"), σ).
Proof. intros H. unfold entity_lookup_value. by rewrite H. Qed.

Lemma get_customer_name_value_str customer_id σ :
  get_customer_name_value E dict_slice_error (PStr customer_id) σ
  = get_customer_name E (Some customer_id) σ.
Proof.
  unfold get_customer_name_value, get_customer_name.
  change (truthy (PStr customer_id)) with (negb (String.eqb customer_id "")).
  destruct (String.eqb customer_id "") eqn:Hid; [done|]. cbn [negb].
  unfold mbind, M_bind. rewrite entity_lookup_value_str.
  destruct (entity_lookup E "account" (Some customer_id) σ) as [[name|e] σ1];
    [|done].
  unfold lift.
  destruct (if truthy name
            then result_map negb (py_startswith name failure_prefixes)
            else Ok false) as [[]|e]; [done| |done].
  apply entity_lookup_value_str.
Qed.

(** *** The lists of divisions and users *)

Lemma pick_dict fields d : pick fields (PDict d) = Ok (picked fields d).
Proof.
  unfold pick, picked.
  assert (result_map_list
            (λ field, result_map (λ v, (field, v))
                        (py_get (PDict d) field (PStr "N/A"))) fields
          = Ok (map (λ field, (field, default (PStr "N/A") (dict_lookup field d)))
                  fields)) as ->; [|done].
  induction fields as [|f fields IH]; [done|].
  cbn [result_map_list map]. rewrite IH. simpl.
  by destruct (dict_lookup f d).
Qed.

Lemma pick_dicts fields ds :
  result_map_list (pick fields) (map PDict ds) = Ok (map (picked fields) ds).
Proof.
  induction ds as [|d ds IH]; [done|]. simpl. by rewrite pick_dict, IH.
Qed.

Lemma list_records_run collection query fields σ :
  let r := {| url := api_url E +:+ "/" +:+ collection;
              headers := _get_headers E; params := query |} in
  (list_records E collection query fields σ).2 = emit (Get r) σ
  ∧ (remote E (trace σ) r = HttpError →
     (list_records E collection query fields σ).1 = Raised RequestException)
  ∧ (∀ code body, remote E (trace σ) r = HttpResponse code body → code ≠ 200 →
       (list_records E collection query fields σ).1 = Ok (PList []))
  ∧ (∀ b ds, remote E (trace σ) r = HttpResponse 200 (Some (PDict b)) →
       dict_lookup "value" b = Some (PList (map PDict ds)) →
       (list_records E collection query fields σ).1
       = Ok (PList (map (picked fields) ds)))
  ∧ (∀ b, remote E (trace σ) r = HttpResponse 200 (Some (PDict b)) →
       dict_lookup "value" b = None →
       (list_records E collection query fields σ).1 = Ok (PList [])).
Proof.
  intros r. unfold list_records. fold r. unfold_M. unfold requests_get.
  split; [|split; [|split; [|split]]].
  - destruct (remote E (trace σ) r) as [|code body]; [done|].
    destruct (code =? 200); [|done]. simpl.
    destruct (response_json body) as [data|]; [|done].
    destruct (py_get data "value" (PList [])) as [value|]; [|done].
    destruct (py_iter value) as [records|]; [|done].
    by destruct (result_map_list (pick fields) records).
  - by intros ->.
  - intros code body -> Hcode. by destruct (Z.eqb_spec code 200).
  - intros b ds -> Hv. simpl. rewrite Hv. simpl. by rewrite pick_dicts.
  - intros b -> Hv. simpl. by rewrite Hv.
Qed.

(** X10. [get_divisions] and [get_users] send one request (to
    businessunits and to systemusers, asking for at most 500 results) and
    touch neither the table nor the clock. On a status other than 200 they
    return the empty list. On a 200 response whose value is a list of
    objects they return one record per object, in the same order, with the
    three fields they keep: the value of the field when the object has it
    (also when it is null), "N/A" when it does not. *)
Theorem get_divisions_and_users_records (σ : world) :
  (∃ r, url r = api_url E +:+ "/businessunits"
        ∧ assoc "$top" (params r) = Some (PInt 500)
        ∧ (get_divisions E σ).2 = emit (Get r) σ
        ∧ (∀ code body, remote E (trace σ) r = HttpResponse code body →
             code ≠ 200 → (get_divisions E σ).1 = Ok (PList []))
        ∧ (∀ b ds, remote E (trace σ) r = HttpResponse 200 (Some (PDict b)) →
             dict_lookup "value" b = Some (PList (map PDict ds)) →
             (get_divisions E σ).1
             = Ok (PList (map (picked [ "name"; "divisionname"; "businessunitid" ])
                            ds))))
  ∧ (∃ r, url r = api_url E +:+ "/systemusers"
          ∧ assoc "$top" (params r) = Some (PInt 500)
          ∧ (get_users E σ).2 = emit (Get r) σ
          ∧ (∀ code body, remote E (trace σ) r = HttpResponse code body →
               code ≠ 200 → (get_users E σ).1 = Ok (PList []))
          ∧ (∀ b ds, remote E (trace σ) r = HttpResponse 200 (Some (PDict b)) →
               dict_lookup "value" b = Some (PList (map PDict ds)) →
               (get_users E σ).1
               = Ok (PList (map (picked [ "fullname"; "domainname"; "systemuserid" ])
                              ds)))).
Proof.
  split.
  - destruct (list_records_run "businessunits"
      [ ("$select", PStr "businessunitid,name,divisionname,createdon,modifiedon,isdisabled,description");
        ("$filter", PStr "isdisabled eq false");
        ("$orderby", PStr "name");
        ("$top", PInt 500) ]
      [ "name"; "divisionname"; "businessunitid" ] σ) as (H1 & _ & H3 & H4 & _).
    eexists. split; [|split; [|split; [exact H1|split; [exact H3|exact H4]]]]; done.
  - destruct (list_records_run "systemusers"
      [ ("$filter", PStr "isdisabled eq false");
        ("$select", PStr "systemuserid,fullname,domainname,firstname,lastname");
        ("$orderby", PStr "fullname");
        ("$top", PInt 500) ]
      [ "fullname"; "domainname"; "systemuserid" ] σ) as (H1 & _ & H3 & H4 & _).
    eexists. split; [|split; [|split; [exact H1|split; [exact H3|exact H4]]]]; done.
Qed.

(** *** The open opportunities *)

Lemma resolve_filter_run entity_type field name v σ σ1 :
  name ≠ "" →
  reverse_lookup E entity_type (Some name) σ = (Ok v, σ1) →
  resolve_filter E entity_type field (Some name) σ
  = (Ok (if truthy v
         then [ field +:+ " eq '" +:+ py_str E v +:+ "'" ]
         else []), σ1).
Proof.
  intros Hn Hr. unfold resolve_filter.
  apply String.eqb_neq in Hn. rewrite Hn.
  rewrite (bind_ok _ _ _ _ _ Hr). by destruct (truthy v).
Qed.

(** X11. A name that [reverse_lookup] does not resolve is left out of the
    filter without a word to the caller: with an owner whose lookup returns
    [None], [get_open_opportunities] goes on exactly as it does without an
    owner; with a division whose lookup returns [None], it goes on with the
    conditions gathered before. *)
Theorem unresolved_names_are_ignored
    (top : Z) (owner_name division_name : string) (owner division : option string)
    (owner_filter : list string) (σ σ1 σ2 : world) :
  (owner_name ≠ "" →
   reverse_lookup E "user" (Some owner_name) σ = (Ok PNone, σ1) →
   get_open_opportunities E response_text dict_slice_error top
     (Some owner_name) division σ
   = get_open_opportunities E response_text dict_slice_error top
       None division σ1)
  ∧ (division_name ≠ "" →
     resolve_filter E "user" "_ownerid_value" owner σ = (Ok owner_filter, σ1) →
     reverse_lookup E "division" (Some division_name) σ1 = (Ok PNone, σ2) →
     get_open_opportunities E response_text dict_slice_error top
       owner (Some division_name) σ
     = fetch_opportunities E response_text dict_slice_error top
         ([ "statecode eq 0" ] ++ owner_filter) σ2).
Proof.
  split.
  - intros Hn Hr. unfold get_open_opportunities.
    by rewrite (bind_ok _ _ _ _ _ (resolve_filter_run _ _ _ _ _ _ Hn Hr)).
  - intros Hn Ho Hr. unfold get_open_opportunities.
    rewrite (bind_ok _ _ _ _ _ Ho).
    rewrite (bind_ok _ _ _ _ _ (resolve_filter_run _ _ _ _ _ _ Hn Hr)).
    simpl. by rewrite app_nil_r.
Qed.

(** Every step of the client extends the trace. *)
Lemma grows_ret {A} (a : A) : grows (mret a : M A).
Proof. by intros σ. Qed.

Lemma grows_lift {A} (r : result A) : grows (lift r).
Proof. by intros σ. Qed.

Lemma grows_bind {A B} (m : M A) (f : A → M B) :
  grows m → (∀ a, grows (f a)) → grows (m ≫= f).
Proof.
  intros Hm Hf σ. unfold mbind, M_bind. specialize (Hm σ).
  destruct (m σ) as [[a|e] σ1]; simpl in *; [|done].
  etrans; [exact Hm|apply Hf].
Qed.

Lemma grows_try {A} (body : M A) (handler : exn → M A) :
  grows body → (∀ e, grows (handler e)) → grows (try_except body handler).
Proof.
  intros Hb Hh σ. unfold try_except. specialize (Hb σ).
  destruct (body σ) as [[a|e] σ1]; simpl in *; [done|].
  etrans; [exact Hb|apply Hh].
Qed.

Lemma grows_requests_get r : grows (requests_get E r).
Proof.
  intros σ. unfold requests_get.
  destruct (remote E (trace σ) r); simpl; by apply prefix_app_r.
Qed.

Lemma grows_check_cache cache_key : grows (check_cache E cache_key).
Proof.
  intros σ. unfold check_cache. unfold_M.
  destruct (cache_data σ !! cache_key) as [cache_entry|]; [|done].
  destruct (_is_cache_entry_valid E cache_entry σ) as [[[]|e] σ1] eqn:Hv;
    destruct (valid_frame E _ _ _ _ Hv) as [_ Htr]; simpl.
  - destruct (py_getitem cache_entry "name"); simpl; by rewrite Htr.
  - by rewrite Htr.
  - by rewrite Htr.
Qed.

Lemma grows_store_entry cache_key name : grows (store_entry E cache_key name).
Proof. intros σ. simpl. by apply prefix_app_r. Qed.

Lemma grows_fetch_value entity_type entity_id :
  grows (_fetch_from_crm_value E dict_slice_error entity_type entity_id).
Proof.
  unfold _fetch_from_crm_value.
  destruct (assoc entity_type fetch_entity_configs) as [config|];
    [|apply grows_ret].
  apply grows_try; [|intros; apply grows_lift].
  apply grows_bind; [apply grows_requests_get|]. intros [code body].
  destruct (code =? 200).
  - apply grows_bind; [apply grows_lift|]. intros data.
    apply grows_bind; [apply grows_lift|]. intros _.
    apply grows_bind; [apply grows_lift|]. intros default.
    apply grows_lift.
  - destruct (code =? 404); apply grows_lift.
Qed.

Lemma grows_entity_lookup_value entity_type entity_id :
  grows (entity_lookup_value E dict_slice_error entity_type entity_id).
Proof.
  unfold entity_lookup_value.
  destruct (negb (truthy entity_id)); [apply grows_ret|].
  apply grows_bind; [apply grows_check_cache|]. intros [name|]; [apply grows_ret|].
  apply grows_bind; [apply grows_lift|]. intros _.
  apply grows_bind; [apply grows_fetch_value|]. intros name.
  apply grows_bind; [apply grows_store_entry|]. intros _. apply grows_ret.
Qed.

Lemma grows_get_customer_name_value customer_id :
  grows (get_customer_name_value E dict_slice_error customer_id).
Proof.
  unfold get_customer_name_value.
  destruct (negb (truthy customer_id)); [apply grows_ret|].
  apply grows_bind; [apply grows_entity_lookup_value|]. intros name.
  apply grows_bind; [apply grows_lift|]. intros [].
  - apply grows_ret.
  - apply grows_entity_lookup_value.
Qed.

Lemma grows_enrich opportunity : grows (enrich E dict_slice_error opportunity).
Proof.
  destruct opportunity as [| | | | |d]; try apply grows_lift.
  unfold enrich.
  apply grows_bind; [apply grows_lift|]. intros owner_id.
  apply grows_bind; [apply grows_entity_lookup_value|]. intros owner_name.
  apply grows_bind; [apply grows_lift|]. intros customer_id.
  apply grows_bind; [apply grows_get_customer_name_value|]. intros customer_name.
  apply grows_bind; [apply grows_lift|]. intros division_id.
  apply grows_bind; [apply grows_entity_lookup_value|]. intros division_name.
  apply grows_lift.
Qed.

Lemma grows_for_each_enrich opportunities :
  grows (for_each (enrich E dict_slice_error) opportunities).
Proof.
  induction opportunities as [|o os IH]; [apply grows_ret|].
  cbn [for_each].
  apply grows_bind; [apply grows_enrich|]. intros o'.
  apply grows_bind; [exact IH|]. intros os'. apply grows_ret.
Qed.

(** The request for the opportunities is the first thing
    [fetch_opportunities] does. *)
Lemma fetch_opportunities_sends top filter_conditions σ :
  ∃ later,
    trace (fetch_opportunities E response_text dict_slice_error top
             filter_conditions σ).2
    = trace σ ++ Get (opportunities_request E top filter_conditions) :: later.
Proof.
  unfold fetch_opportunities.
  set (r := opportunities_request E top filter_conditions).
  rewrite (bind_ok (gets trace) _ σ (trace σ) σ eq_refl).
  unfold mbind at 1. unfold M_bind at 1. unfold requests_get.
  destruct (remote E (trace σ) r) as [|code body]; [by exists []|].
  assert (∀ (k : M pyval), grows k →
            ∃ later, trace (k (emit (Get r) σ)).2 = trace σ ++ Get r :: later)
    as Hrest.
  { intros k Hk. destruct (Hk (emit (Get r) σ)) as [later Hl].
    exists later. rewrite Hl. simpl. by rewrite <- app_assoc. }
  apply Hrest.
  destruct (negb (code =? 200)); [apply grows_ret|].
  apply grows_bind; [apply grows_lift|]. intros result.
  apply grows_bind; [apply grows_lift|]. intros value.
  apply grows_bind; [apply grows_lift|]. intros opportunities.
  apply grows_bind; [apply grows_for_each_enrich|]. intros enriched.
  apply grows_ret.
Qed.

(** X12. With an owner and a division that [reverse_lookup] resolves to the
    identifiers [x] and [y], the first thing [get_open_opportunities] sends
    after the two lookups is a GET to the opportunities of the API, with
    the headers of the client, whose [$filter] is statecode eq 0 and
    _ownerid_value eq 'x' and _actum_divisionid_value eq 'y' and whose
    [$top] is the number asked for; everything else it sends or saves
    comes after that request. *)
Theorem resolved_names_filter_the_query
    (top : Z) (owner_name division_name x y : string) (σ σ1 σ2 : world) :
  owner_name ≠ "" → division_name ≠ "" →
  reverse_lookup E "user" (Some owner_name) σ = (Ok (PStr x), σ1) →
  reverse_lookup E "division" (Some division_name) σ1 = (Ok (PStr y), σ2) →
  let run := get_open_opportunities E response_text dict_slice_error top
               (Some owner_name) (Some division_name) σ in
  run = fetch_opportunities E response_text dict_slice_error top
          [ "statecode eq 0"; "_ownerid_value eq '" +:+ x +:+ "'";
            "_actum_divisionid_value eq '" +:+ y +:+ "'" ] σ2
  ∧ ∃ req later,
      trace run.2 = trace σ2 ++ Get req :: later
      ∧ url req = api_url E +:+ "/opportunities"
      ∧ headers req = _get_headers E
      ∧ params req
        = [ ("$filter",
             PStr ("statecode eq 0 and _ownerid_value eq '" +:+ x
                     +:+ "' and _actum_divisionid_value eq '" +:+ y +:+ "'"));
            ("$select", PStr "createdon,name,stepname,modifiedon,_actum_divisionid_value,_ownerid_value,estimatedvalue_base,estimatedclosedate,_customerid_value");
            ("$orderby", PStr "createdon desc");
            ("$top", PInt top) ].
Proof.
  intros Hn Hm Ho Hd run.
  assert (truthy (PStr x) = true ∧ truthy (PStr y) = true) as [Hx Hy].
  { destruct (reverse_lookup_cases E _ _ _ _ _ Ho)
      as (? & [= <-] & _ & [(? & _) | (? & ? & Hx & _)]); [done|].
    destruct (reverse_lookup_cases E _ _ _ _ _ Hd)
      as (? & [= <-] & _ & [(? & _) | (? & ? & Hy & _)]); done. }
  assert (run = fetch_opportunities E response_text dict_slice_error top
                  [ "statecode eq 0"; "_ownerid_value eq '" +:+ x +:+ "'";
                    "_actum_divisionid_value eq '" +:+ y +:+ "'" ] σ2) as Hrun.
  { subst run. unfold get_open_opportunities.
    rewrite (bind_ok _ _ _ _ _ (resolve_filter_run _ _ _ _ _ _ Hn Ho)).
    rewrite (bind_ok _ _ _ _ _ (resolve_filter_run _ _ _ _ _ _ Hm Hd)).
    by rewrite Hx, Hy. }
  split; [exact Hrun|].
  destruct (fetch_opportunities_sends top
              [ "statecode eq 0"; "_ownerid_value eq '" +:+ x +:+ "'";
                "_actum_divisionid_value eq '" +:+ y +:+ "'" ] σ2)
    as [later Hlater].
  eexists _, later. rewrite Hrun. split; [exact Hlater|].
  split; [done|]. split; [done|].
  simpl. do 3 f_equal. unfold String.concat.
  by rewrite !append_assoc.
Qed.

Lemma py_get_dict d k default :
  py_get (PDict d) k default
  = Ok (match dict_lookup k d with Some x => x | None => default end).
Proof. done. Qed.

Lemma enrich_run d σ :
  enrich E dict_slice_error (PDict d) σ
  = match entity_lookup_value E dict_slice_error "user"
            (id_in "_ownerid_value" d) σ with
    | (Raised e, σa) => (Raised e, σa)
    | (Ok owner_name, σa) =>
      match get_customer_name_value E dict_slice_error
              (id_in "_customerid_value" d) σa with
      | (Raised e, σb) => (Raised e, σb)
      | (Ok customer_name, σb) =>
        match entity_lookup_value E dict_slice_error "division"
                (id_in "_actum_divisionid_value" d) σb with
        | (Raised e, σc) => (Raised e, σc)
        | (Ok division_name, σc) =>
          (Ok (PDict (with_names owner_name customer_name division_name d)), σc)
        end
      end
    end.
Proof.
  unfold enrich, id_in, with_names. unfold mbind, M_bind, lift.
  rewrite py_get_dict.
  change (default (PStr "") (dict_lookup "_ownerid_value" d))
    with (match dict_lookup "_ownerid_value" d with
          | Some x => x | None => PStr "" end).
  destruct (entity_lookup_value E dict_slice_error "user" _ σ)
    as [[owner_name|e] σa]; [|done].
  rewrite py_get_dict, dict_lookup_set.
  change (String.eqb "_customerid_value" "owner_name") with false. cbv iota.
  change (default (PStr "") (dict_lookup "_customerid_value" d))
    with (match dict_lookup "_customerid_value" d with
          | Some x => x | None => PStr "" end).
  destruct (get_customer_name_value E dict_slice_error _ σa)
    as [[customer_name|e] σb]; [|done].
  rewrite py_get_dict, !dict_lookup_set.
  change (String.eqb "_actum_divisionid_value" "customer_name") with false.
  change (String.eqb "_actum_divisionid_value" "owner_name") with false.
  cbv iota.
  change (default (PStr "") (dict_lookup "_actum_divisionid_value" d))
    with (match dict_lookup "_actum_divisionid_value" d with
          | Some x => x | None => PStr "" end).
  by destruct (entity_lookup_value E dict_slice_error "division" _ σb)
    as [[division_name|e] σc].
Qed.

Lemma with_names_enriched owner_name customer_name division_name d :
  enriched_from (PDict d)
    (PDict (with_names owner_name customer_name division_name d)).
Proof.
  exists d, (with_names owner_name customer_name division_name d).
  unfold with_names.
  split; [done|]. split; [done|].
  repeat split.
  - rewrite dict_lookup_remove_all, !dict_lookup_set. by eexists.
  - rewrite dict_lookup_remove_all, !dict_lookup_set. by eexists.
  - rewrite dict_lookup_remove_all, !dict_lookup_set. by eexists.
  - intros k Hk. rewrite dict_lookup_remove_all. by rewrite decide_True.
  - intros k Hk Hn. rewrite dict_lookup_remove_all, decide_False by done.
    rewrite !dict_lookup_set.
    destruct (String.eqb_spec k "division_name") as [->|_]; [set_solver|].
    destruct (String.eqb_spec k "customer_name") as [->|_]; [set_solver|].
    destruct (String.eqb_spec k "owner_name") as [->|_]; [set_solver|done].
Qed.

Lemma for_each_enrich_ok opportunities enriched σ σ' :
  for_each (enrich E dict_slice_error) opportunities σ = (Ok enriched, σ') →
  Forall2 enriched_from opportunities enriched.
Proof.
  revert enriched σ σ'.
  induction opportunities as [|o os IH]; intros enriched σ σ'; simpl.
  - intros [= <- _]. constructor.
  - unfold mbind, M_bind.
    destruct (enrich E dict_slice_error o σ) as [[o'|e] σ1] eqn:Ho; [|done].
    destruct (for_each (enrich E dict_slice_error) os σ1)
      as [[os'|e] σ2] eqn:Hos; [|done].
    intros [= <- _]. constructor; [|by eapply IH].
    destruct o as [| | | | |d]; try (by inversion Ho).
    rewrite enrich_run in Ho.
    destruct (entity_lookup_value _ _ "user" _ σ) as [[on|?] σa]; [|done].
    destruct (get_customer_name_value _ _ _ σa) as [[cn|?] σb]; [|done].
    destruct (entity_lookup_value _ _ "division" _ σb) as [[dn|?] σc]; [|done].
    injection Ho as <- _. apply with_names_enriched.
Qed.

Lemma for_each_enrich_without_ids ds σ :
  Forall without_ids ds →
  for_each (enrich E dict_slice_error) (map PDict ds) σ
  = (Ok (map (λ d, PDict (with_names (PStr "N/A") (PStr "N/A") (PStr "N/A") d))
           ds), σ).
Proof.
  induction 1 as [|d ds (Ho & Hc & Hd) _ IH]; [done|].
  cbn [for_each map]. unfold mbind, M_bind. rewrite enrich_run.
  rewrite (entity_lookup_value_falsy _ _ _ Ho).
  unfold get_customer_name_value. rewrite Hc. cbn [negb].
  unfold mret, M_ret.
  rewrite (entity_lookup_value_falsy _ _ _ Hd).
  by rewrite IH.
Qed.

(** X13. [get_open_opportunities] does not catch what its own request
    raises: a request that fails raises, and so does a 200 response whose
    body cannot be decoded or is not an object. A response with another
    status is turned into a dictionary with the status error, the status
    code and the text of the response. In each case the request is the only
    thing done: no opportunity is looked up. *)
Theorem opportunities_request_failures
    (top : Z) (filter_conditions : list string) (σ : world) :
  let r := opportunities_request E top filter_conditions in
  let run := fetch_opportunities E response_text dict_slice_error top
               filter_conditions σ in
  (remote E (trace σ) r = HttpError →
     run = (Raised RequestException, emit (Get r) σ))
  ∧ (∀ code body, remote E (trace σ) r = HttpResponse code body → code ≠ 200 →
       run = (Ok (PDict [ ("status", PStr "error");
                          ("status_code", PInt code);
                          ("message", PStr "Failed to fetch opportunities");
                          ("response", PStr (response_text (trace σ) r)) ]),
              emit (Get r) σ))
  ∧ (remote E (trace σ) r = HttpResponse 200 None →
       run = (Raised JSONDecodeError, emit (Get r) σ))
  ∧ (∀ data, remote E (trace σ) r = HttpResponse 200 (Some data) →
       (∀ d, data ≠ PDict d) →
       run = (Raised AttributeError, emit (Get r) σ)).
Proof.
  intros r run. subst run. unfold fetch_opportunities. fold r.
  unfold_M. unfold requests_get.
  repeat split.
  - by intros ->.
  - intros code body -> Hcode. by destruct (Z.eqb_spec code 200).
  - by intros ->.
  - intros data -> Hd. simpl. destruct data; try done. by destruct (Hd d).
Qed.

(** X14. When the request for the opportunities is answered with 200 and
    an object whose value is a list, and [get_open_opportunities] returns,
    it returns that object with the list replaced by a list of the same
    length and order in which every opportunity has an owner_name, a
    customer_name and a division_name, has lost the six raw fields, and
    has every other field as the CRM sent it. *)
Theorem opportunities_are_enriched
    (top : Z) (filter_conditions : list string) (b : list (string * pyval))
    (opportunities : list pyval) (res : pyval) (σ σ' : world) :
  remote E (trace σ) (opportunities_request E top filter_conditions)
  = HttpResponse 200 (Some (PDict b)) →
  dict_lookup "value" b = Some (PList opportunities) →
  fetch_opportunities E response_text dict_slice_error top filter_conditions σ
  = (Ok res, σ') →
  ∃ enriched,
    res = PDict (dict_set "value" (PList enriched) b)
    ∧ Forall2 enriched_from opportunities enriched.
Proof.
  intros Hr Hv. unfold fetch_opportunities.
  unfold_M. unfold requests_get. rewrite Hr. simpl. rewrite Hv. simpl.
  destruct (for_each (enrich E dict_slice_error) opportunities _)
    as [[enriched|e] σ1] eqn:Hfor; [|done].
  intros [= <- _]. exists enriched. split; [done|].
  by eapply for_each_enrich_ok.
Qed.

(** X15. Opportunities that have none of the three identifiers (the field
    is absent, null or empty) get the name "N/A" three times, and nothing
    is looked up for them: the request for the opportunities is the only
    one sent and the table is untouched. *)
Theorem opportunities_without_ids_get_NA
    (top : Z) (filter_conditions : list string) (b : list (string * pyval))
    (ds : list (list (string * pyval))) (σ : world) :
  let r := opportunities_request E top filter_conditions in
  remote E (trace σ) r = HttpResponse 200 (Some (PDict b)) →
  dict_lookup "value" b = Some (PList (map PDict ds)) →
  Forall without_ids ds →
  fetch_opportunities E response_text dict_slice_error top filter_conditions σ
  = (Ok (PDict (dict_set "value"
                  (PList (map (λ d, PDict (with_names (PStr "N/A") (PStr "N/A")
                                             (PStr "N/A") d)) ds))
                  b)),
     emit (Get r) σ).
Proof.
  intros r Hr Hv Hno. unfold fetch_opportunities. fold r.
  unfold_M. unfold requests_get. rewrite Hr. simpl. rewrite Hv. simpl.
  by rewrite (for_each_enrich_without_ids _ _ Hno).
Qed.

End ClientProperties.

(** ** The further statements on the sample CRM *)

Lemma two_entries_ok : table_ok SampleClient.two_entries.
Proof.
  intros k e. unfold SampleClient.two_entries, Sample.world_of. simpl.
  rewrite lookup_insert. case_decide; [intros [= <-]; by eexists _, _|].
  rewrite lookup_insert. case_decide; [intros [= <-]; by eexists _, _|].
  by rewrite lookup_empty.
Defined.

Lemma entity_lookup_touches_only_its_key_witness :
  cache_data (entity_lookup Sample.crm_empty "user" (Some Sample.jane)
                SampleClient.two_entries).2
    !! ("division_" +:+ SampleClient.sales)
  = Some (Sample.entry "Sales" "2024-05-01T11:00:00").
Proof.
  rewrite (entity_lookup_touches_only_its_key Sample.crm_empty "user" Sample.jane
             ("division_" +:+ SampleClient.sales) SampleClient.two_entries
             (entity_lookup Sample.crm_empty "user" (Some Sample.jane)
                SampleClient.two_entries).2
             (entity_lookup Sample.crm_empty "user" (Some Sample.jane)
                SampleClient.two_entries).1).
  - vm_compute. reflexivity.
  - discriminate.
  - apply surjective_pairing.
  - discriminate.
Defined.

Lemma cache_operations_keep_file_in_sync_witness :
  in_sync (cache_data SampleClient.two_entries) SampleClient.two_entries
  ∧ in_sync (cache_data SampleClient.two_entries)
      (entity_lookup Sample.crm_empty "user" (Some Sample.jane)
         SampleClient.two_entries).2
  ∧ in_sync (cache_data SampleClient.two_entries)
      (get_customer_name Sample.crm_empty (Some Sample.jane)
         SampleClient.two_entries).2
  ∧ in_sync (cache_data SampleClient.two_entries)
      (reverse_lookup (Sample.crm_users Sample.jane_found) "user"
         (Some "Jane Doe") SampleClient.two_entries).2
  ∧ in_sync (cache_data (Sample.number_cached Sample.at_expiry))
      (entity_lookup_value Sample.crm_empty TypeError "user"
         (PList [ PInt 12345 ]) (Sample.number_cached Sample.at_expiry)).2
  ∧ (entity_lookup_value Sample.crm_empty TypeError "user" (PInt 12345)
       (Sample.number_cached Sample.at_expiry)).1
    = Raised TypeError
  ∧ ¬ in_sync (cache_data (Sample.number_cached Sample.at_expiry))
        (entity_lookup_value Sample.crm_empty TypeError "user" (PInt 12345)
           (Sample.number_cached Sample.at_expiry)).2.
Proof.
  assert (in_sync (cache_data SampleClient.two_entries) SampleClient.two_entries)
    as Hsync by reflexivity.
  assert (in_sync (cache_data (Sample.number_cached Sample.at_expiry))
            (Sample.number_cached Sample.at_expiry))
    as Hnumber by reflexivity.
  split; [exact Hsync|]. split; [|split; [|split; [|split]]].
  - eapply (proj1 (cache_operations_keep_file_in_sync Sample.crm_empty _ "user"
                     (Some Sample.jane) None _ _ _ Hsync)).
    apply surjective_pairing.
  - eapply (proj1 (proj2 (cache_operations_keep_file_in_sync Sample.crm_empty _
                            "user" (Some Sample.jane) None _ _ _ Hsync))).
    apply surjective_pairing.
  - eapply (proj1 (proj2 (proj2 (cache_operations_keep_file_in_sync
                            (Sample.crm_users Sample.jane_found) _ "user" None
                            (Some "Jane Doe") _ _ _ Hsync)))).
    apply surjective_pairing.
  - eapply (proj1 (proj1 (proj2 (proj2 (proj2
              (cache_operations_keep_file_in_sync Sample.crm_empty _ "user"
                 None None _ _ _ Hnumber))))
              TypeError (PList [ PInt 12345 ])
              (or_intror (ex_intro _ (PList [ PInt 12345 ]) eq_refl)))).
    apply surjective_pairing.
  - apply (proj2 (proj2 (proj2 (proj2
             (cache_operations_keep_file_in_sync Sample.crm_empty _ "user"
                None None _ _ _ Hnumber))))
             TypeError (PInt 12345) TypeError Sample.at_expiry
             (tick (Sample.number_cached Sample.at_expiry)));
      [reflexivity | reflexivity | vm_compute; reflexivity
       | vm_compute; reflexivity | apply surjective_pairing].
Defined.

Lemma cache_operations_keep_entries_well_formed_witness :
  table_ok (entity_lookup Sample.crm_empty "user" (Some Sample.jane)
              SampleClient.two_entries).2
  ∧ table_ok (get_customer_name Sample.crm_empty (Some Sample.jane)
                SampleClient.two_entries).2
  ∧ table_ok (reverse_lookup (Sample.crm_users Sample.jane_found) "user"
                (Some "Jane Doe") SampleClient.two_entries).2.
Proof.
  split; [|split].
  - eapply (proj1 (cache_operations_keep_entries_well_formed Sample.crm_empty
                     "user" (Some Sample.jane) None _ _ _ two_entries_ok)).
    apply surjective_pairing.
  - eapply (proj1 (proj2 (cache_operations_keep_entries_well_formed
                            Sample.crm_empty "user" (Some Sample.jane) None
                            _ _ _ two_entries_ok))).
    apply surjective_pairing.
  - eapply (proj2 (proj2 (cache_operations_keep_entries_well_formed
                            (Sample.crm_users Sample.jane_found) "user" None
                            (Some "Jane Doe") _ _ _ two_entries_ok))).
    apply surjective_pairing.
Defined.

Lemma entity_lookup_never_raises_on_own_table_witness :
  ∃ name σ',
    entity_lookup Sample.crm_empty "user" (Some Sample.jane)
      SampleClient.two_entries
    = (Ok name, σ').
Proof.
  exact (entity_lookup_never_raises_on_own_table Sample.crm_empty "user"
           (Some Sample.jane) SampleClient.two_entries two_entries_ok).
Defined.

Lemma lookup_after_miss_is_cached_witness :
  (entity_lookup Sample.crm_empty "user" (Some Sample.jane) Sample.empty_world).1
  = Ok (PStr "Not found (3f9a2c1d...)")
  ∧ entity_lookup Sample.crm_empty "user" (Some Sample.jane)
      (entity_lookup Sample.crm_empty "user" (Some Sample.jane)
         Sample.empty_world).2
    = (Ok (PStr "Not found (3f9a2c1d...)"),
       tick (entity_lookup Sample.crm_empty "user" (Some Sample.jane)
               Sample.empty_world).2).
Proof.
  split; [vm_compute; reflexivity|].
  apply (lookup_after_miss_is_cached Sample.crm_empty "user" Sample.jane
           (PStr "Not found (3f9a2c1d...)") Sample.empty_world).
  - discriminate.
  - reflexivity.
  - vm_compute. reflexivity.
  - vm_compute. reflexivity.
  - vm_compute. reflexivity.
Defined.

Lemma valid_entry_is_served_witness :
  entity_lookup Sample.crm_empty "user" (Some Sample.jane)
    (Sample.jane_cached Sample.before_expiry)
  = (Ok (PStr "Jane Doe"), tick (Sample.jane_cached Sample.before_expiry))
  ∧ entity_lookup Sample.crm_empty "user" (Some Sample.jane)
      (Sample.jane_cached
         (PDict [ ("timestamp", PStr "2024-05-01T11:00:00") ]))
    = (Raised KeyError,
       tick (Sample.jane_cached
               (PDict [ ("timestamp", PStr "2024-05-01T11:00:00") ]))).
Proof.
  split.
  - apply (valid_entry_is_served Sample.crm_empty "user" Sample.jane
             "2024-04-24T04:00:00.000001"
             [ ("name", PStr "Jane Doe");
               ("timestamp", PStr "2024-04-24T04:00:00.000001") ]
             (Sample.t0 - timedelta_hours CACHE_EXPIRY_HOURS + 1)).
    + discriminate.
    + vm_compute. reflexivity.
    + reflexivity.
    + vm_compute. reflexivity.
    + vm_compute. reflexivity.
  - apply (valid_entry_is_served Sample.crm_empty "user" Sample.jane
             "2024-05-01T11:00:00"
             [ ("timestamp", PStr "2024-05-01T11:00:00") ]
             (Sample.t0 - 3600000000)).
    + discriminate.
    + vm_compute. reflexivity.
    + reflexivity.
    + vm_compute. reflexivity.
    + vm_compute. reflexivity.
Defined.

Lemma reverse_lookup_footprint_witness :
  (length (requests_of
             (trace (reverse_lookup (Sample.crm_users Sample.jane_found) "user"
                       (Some "Jane Doe") SampleClient.two_entries).2))
   ≤ 0 + 2)%nat
  ∧ cache_data (reverse_lookup (Sample.crm_users Sample.jane_found) "user"
                  (Some "Jane Doe") SampleClient.two_entries).2
      !! ("division_" +:+ SampleClient.sales)
    = Some (Sample.entry "Sales" "2024-05-01T11:00:00")
  ∧ cache_data (reverse_lookup Sample.crm_empty "user" (Some "Jane Doe")
                  SampleClient.two_entries).2
    = cache_data SampleClient.two_entries.
Proof.
  destruct (reverse_lookup_footprint (Sample.crm_users Sample.jane_found) "user"
              (Some "Jane Doe") SampleClient.two_entries
              (reverse_lookup (Sample.crm_users Sample.jane_found) "user"
                 (Some "Jane Doe") SampleClient.two_entries).2
              (PStr Sample.jane)) as (Hlen & _ & Hother);
    [vm_compute; reflexivity|].
  destruct (reverse_lookup_footprint Sample.crm_empty "user"
              (Some "Jane Doe") SampleClient.two_entries
              (reverse_lookup Sample.crm_empty "user"
                 (Some "Jane Doe") SampleClient.two_entries).2
              PNone) as (_ & Hnone & _);
    [vm_compute; reflexivity|].
  split; [exact Hlen|]. split; [|by apply Hnone].
  rewrite Hother; [vm_compute; reflexivity|discriminate].
Defined.

Lemma aware_timestamp_is_never_valid_witness :
  _is_cache_entry_valid Sample.crm_empty
    (Sample.entry "Jane Doe" "2024-05-01T11:59:59+02:00") Sample.empty_world
  = (Ok false, tick Sample.empty_world).
Proof.
  apply (aware_timestamp_is_never_valid Sample.crm_empty
           [ ("name", PStr "Jane Doe");
             ("timestamp", PStr "2024-05-01T11:59:59+02:00") ]
           "2024-05-01T11:59:59+02:00" (Sample.t0 - 1000000 - 7200000000)).
  - reflexivity.
  - vm_compute. reflexivity.
Defined.

Lemma configured_keys_do_not_collide_witness :
  cache_key_of "account" Sample.acme = cache_key_of "account" Sample.acme
  ∧ "account" = "account" ∧ Sample.acme = Sample.acme.
Proof.
  split; [reflexivity|].
  apply configured_keys_do_not_collide; [by eexists|by eexists|reflexivity].
Defined.

Lemma get_crm_config_all_or_attribute_error_witness :
  get_crm_config (SampleClient.getenv_of SampleClient.two_missing)
  = Raised AttributeError
  ∧ ∃ a b c d,
      SampleClient.getenv_of SampleClient.all_set "CLIENT_ID" = Some a
      ∧ SampleClient.getenv_of SampleClient.all_set "CLIENT_SECRET" = Some b
      ∧ SampleClient.getenv_of SampleClient.all_set "TENANT_ID" = Some c
      ∧ SampleClient.getenv_of SampleClient.all_set "RESOURCE" = Some d
      ∧ get_crm_config (SampleClient.getenv_of SampleClient.all_set)
        = Ok (PDict [ ("client_id", PStr a); ("client_secret", PStr b);
                      ("tenant_id", PStr c); ("resource", PStr d) ]).
Proof.
  split.
  - apply (proj2 (get_crm_config_all_or_attribute_error
                    (SampleClient.getenv_of SampleClient.two_missing))).
    intros (_ & _ & (s & Hs & _) & _). vm_compute in Hs. discriminate.
  - apply (proj1 (get_crm_config_all_or_attribute_error
                    (SampleClient.getenv_of SampleClient.all_set))).
    repeat split; eexists; (split; [reflexivity|discriminate]).
Defined.

Lemma get_divisions_and_users_records_witness :
  (get_divisions SampleClient.crm Sample.empty_world).1
  = Ok (PList
          [ PDict [ ("name", PStr "Sales"); ("divisionname", PNone);
                    ("businessunitid", PStr SampleClient.sales) ];
            PDict [ ("name", PStr "Support"); ("divisionname", PStr "N/A");
                    ("businessunitid", PStr "N/A") ] ])
  ∧ (get_users SampleClient.crm Sample.empty_world).1 = Ok (PList []).
Proof.
  destruct (get_divisions_and_users_records SampleClient.crm Sample.empty_world)
    as [(r & Hurl & _ & Hstate & _ & Hrecords) (r' & Hurl' & _ & Hstate' & Hempty & _)].
  assert (r = (match (get_divisions SampleClient.crm Sample.empty_world).2
               with {| trace := t |} =>
                 match t with Get r0 :: _ => r0 | _ => r end
               end)) as Hr by (by rewrite Hstate).
  assert (r' = (match (get_users SampleClient.crm Sample.empty_world).2
                with {| trace := t |} =>
                  match t with Get r0 :: _ => r0 | _ => r' end
                end)) as Hr' by (by rewrite Hstate').
  vm_compute in Hr, Hr'. subst r r'.
  split.
  - apply (Hrecords
             [ ("value",
                PList [ PDict [ ("businessunitid", PStr SampleClient.sales);
                                ("name", PStr "Sales"); ("divisionname", PNone) ];
                        PDict [ ("name", PStr "Support") ] ]) ]
             [ [ ("businessunitid", PStr SampleClient.sales); ("name", PStr "Sales");
                 ("divisionname", PNone) ];
               [ ("name", PStr "Support") ] ]); reflexivity.
  - apply (Hempty 404 None); [reflexivity|discriminate].
Defined.

Lemma unresolved_names_are_ignored_witness :
  reverse_lookup (Sample.crm_users HttpError) "user" (Some "Jane Doe")
    Sample.empty_world
  = (Ok PNone,
     (reverse_lookup (Sample.crm_users HttpError) "user" (Some "Jane Doe")
        Sample.empty_world).2)
  ∧ get_open_opportunities (Sample.crm_users HttpError) SampleClient.text
      SampleClient.slice_error 1000 (Some "Jane Doe") None Sample.empty_world
    = get_open_opportunities (Sample.crm_users HttpError) SampleClient.text
        SampleClient.slice_error 1000 None None
        (reverse_lookup (Sample.crm_users HttpError) "user" (Some "Jane Doe")
           Sample.empty_world).2
  ∧ get_open_opportunities SampleClient.crm SampleClient.text
      SampleClient.slice_error 1000 (Some "Jane Doe") (Some "Marketing")
      Sample.empty_world
    = fetch_opportunities SampleClient.crm SampleClient.text
        SampleClient.slice_error 1000
        [ "statecode eq 0"; "_ownerid_value eq '" +:+ Sample.jane +:+ "'" ]
        (reverse_lookup SampleClient.crm "division" (Some "Marketing")
           (reverse_lookup SampleClient.crm "user" (Some "Jane Doe")
              Sample.empty_world).2).2.
Proof.
  assert (reverse_lookup (Sample.crm_users HttpError) "user" (Some "Jane Doe")
            Sample.empty_world
          = (Ok PNone,
             (reverse_lookup (Sample.crm_users HttpError) "user" (Some "Jane Doe")
                Sample.empty_world).2)) as Hnone by (vm_compute; reflexivity).
  split; [exact Hnone|]. split.
  - apply (proj1 (unresolved_names_are_ignored (Sample.crm_users HttpError)
                    SampleClient.text SampleClient.slice_error 1000
                    "Jane Doe" "" None None [] Sample.empty_world _
                    Sample.empty_world)); [discriminate|exact Hnone].
  - apply (proj2 (unresolved_names_are_ignored SampleClient.crm
                    SampleClient.text SampleClient.slice_error 1000
                    "" "Marketing" (Some "Jane Doe") None
                    [ "_ownerid_value eq '" +:+ Sample.jane +:+ "'" ]
                    Sample.empty_world
                    (reverse_lookup SampleClient.crm "user" (Some "Jane Doe")
                       Sample.empty_world).2
                    _)).
    + discriminate.
    + vm_compute. reflexivity.
    + vm_compute. reflexivity.
Defined.

Lemma resolved_names_filter_the_query_witness :
  ∃ req later,
    trace (get_open_opportunities SampleClient.crm SampleClient.text
             SampleClient.slice_error 10 (Some "Jane Doe") (Some "Sales")
             Sample.empty_world).2
    = trace (reverse_lookup SampleClient.crm "division" (Some "Sales")
               (reverse_lookup SampleClient.crm "user" (Some "Jane Doe")
                  Sample.empty_world).2).2
      ++ Get req :: later
    ∧ url req = Sample.api +:+ "/opportunities"
    ∧ headers req = _get_headers SampleClient.crm
    ∧ params req
      = [ ("$filter",
           PStr ("statecode eq 0 and _ownerid_value eq '" +:+ Sample.jane
                   +:+ "' and _actum_divisionid_value eq '" +:+ SampleClient.sales
                   +:+ "'"));
          ("$select", PStr "createdon,name,stepname,modifiedon,_actum_divisionid_value,_ownerid_value,estimatedvalue_base,estimatedclosedate,_customerid_value");
          ("$orderby", PStr "createdon desc");
          ("$top", PInt 10) ].
Proof.
  apply (proj2 (resolved_names_filter_the_query SampleClient.crm SampleClient.text
                  SampleClient.slice_error 10 "Jane Doe" "Sales" Sample.jane
                  SampleClient.sales Sample.empty_world
                  (reverse_lookup SampleClient.crm "user" (Some "Jane Doe")
                     Sample.empty_world).2
                  (reverse_lookup SampleClient.crm "division" (Some "Sales")
                     (reverse_lookup SampleClient.crm "user" (Some "Jane Doe")
                        Sample.empty_world).2).2
                  ltac:(discriminate) ltac:(discriminate)
                  ltac:(vm_compute; reflexivity) ltac:(vm_compute; reflexivity))).
Defined.

Lemma opportunities_request_failures_witness :
  fetch_opportunities Sample.crm_empty SampleClient.text SampleClient.slice_error
    1000 [ "statecode eq 0" ] Sample.empty_world
  = (Ok (PDict [ ("status", PStr "error"); ("status_code", PInt 404);
                 ("message", PStr "Failed to fetch opportunities");
                 ("response", PStr "Service Unavailable") ]),
     emit (Get (opportunities_request Sample.crm_empty 1000 [ "statecode eq 0" ]))
       Sample.empty_world).
Proof.
  apply (proj1 (proj2 (opportunities_request_failures Sample.crm_empty
                         SampleClient.text SampleClient.slice_error 1000
                         [ "statecode eq 0" ] Sample.empty_world)) 404 None).
  - reflexivity.
  - discriminate.
Defined.

Lemma opportunities_are_enriched_witness :
  ∃ enriched,
    (get_open_opportunities SampleClient.crm SampleClient.text
       SampleClient.slice_error 1000 None None Sample.empty_world).1
    = Ok (PDict [ ("@odata.context", PStr "opportunities");
                  ("value", PList enriched) ])
    ∧ Forall2 enriched_from
        [ PDict SampleClient.big_deal; PDict SampleClient.small_deal ] enriched.
Proof.
  destruct (opportunities_are_enriched SampleClient.crm SampleClient.text
              SampleClient.slice_error 1000 [ "statecode eq 0" ]
              [ ("@odata.context", PStr "opportunities");
                ("value", PList [ PDict SampleClient.big_deal;
                                  PDict SampleClient.small_deal ]) ]
              [ PDict SampleClient.big_deal; PDict SampleClient.small_deal ]
              (match (fetch_opportunities SampleClient.crm SampleClient.text
                        SampleClient.slice_error 1000 [ "statecode eq 0" ]
                        Sample.empty_world).1 with
               | Ok v => v
               | Raised _ => PNone
               end)
              Sample.empty_world
              (fetch_opportunities SampleClient.crm SampleClient.text
                 SampleClient.slice_error 1000 [ "statecode eq 0" ]
                 Sample.empty_world).2)
    as (enriched & Hres & Hall).
  - reflexivity.
  - reflexivity.
  - vm_compute. reflexivity.
  - exists enriched. split; [|exact Hall].
    change (get_open_opportunities SampleClient.crm SampleClient.text
              SampleClient.slice_error 1000 None None Sample.empty_world)
      with (fetch_opportunities SampleClient.crm SampleClient.text
              SampleClient.slice_error 1000 [ "statecode eq 0" ]
              Sample.empty_world).
    transitivity (Ok (match (fetch_opportunities SampleClient.crm SampleClient.text
                                SampleClient.slice_error 1000 [ "statecode eq 0" ]
                                Sample.empty_world).1 with
                      | Ok v => v
                      | Raised _ => PNone
                      end)); [vm_compute; reflexivity|].
    f_equal. exact Hres.
Defined.

Lemma opportunities_without_ids_get_NA_witness :
  fetch_opportunities SampleClient.crm_bare SampleClient.text
    SampleClient.slice_error 1000 [ "statecode eq 0" ] Sample.empty_world
  = (Ok (PDict [ ("value",
                  PList [ PDict [ ("name", PStr "Small deal");
                                  ("owner_name", PStr "N/A");
                                  ("customer_name", PStr "N/A");
                                  ("division_name", PStr "N/A") ] ]) ]),
     emit (Get (opportunities_request SampleClient.crm_bare 1000
                  [ "statecode eq 0" ]))
       Sample.empty_world).
Proof.
  apply (opportunities_without_ids_get_NA SampleClient.crm_bare SampleClient.text
           SampleClient.slice_error 1000 [ "statecode eq 0" ]
           [ ("value", PList [ PDict SampleClient.small_deal ]) ]
           [ SampleClient.small_deal ] Sample.empty_world).
  - reflexivity.
  - reflexivity.
  - repeat constructor.
Defined.

(** The open opportunities of the sample CRM, computed: the names are
    resolved through the cache, the raw fields are gone, and the account
    that is not found falls back to the contact. *)
Example sample_open_opportunities :
  (get_open_opportunities SampleClient.crm SampleClient.text
     SampleClient.slice_error 1000 None None Sample.empty_world).1
  = Ok (PDict
          [ ("@odata.context", PStr "opportunities");
            ("value",
             PList [ PDict [ ("name", PStr "Big deal");
                             ("owner_name", PStr "Jane Doe");
                             ("customer_name", PStr "Bob");
                             ("division_name", PStr "N/A") ];
                     PDict [ ("name", PStr "Small deal");
                             ("owner_name", PStr "N/A");
                             ("customer_name", PStr "N/A");
                             ("division_name", PStr "N/A") ] ]) ]).
Proof. by vm_compute. Qed.
